(** * Record API (src/app.py): a shallow embedding and its contract

    The Flask application of src/app.py manages one table of records
    through five routes.  This development embeds

    - the Python values a JSON body decodes to, with Python's truthiness,
      [str.strip], the [in] operator, subscription and [dict.get];
    - UTC datetimes with [strftime('%Y-%m-%dT%H:%M:%S.%fZ')] and
      [isoformat()];
    - the [Record] model with [to_dict] and [update_from_dict];
    - the view functions and the two registered error handlers, as
      computations over a world made of the table, the id sequence, the
      UTC clock and the health of the storage engine.

    Modelling choices, all on the side of the external collaborators:
    the request body is taken after [request.get_json()] has decoded it;
    the storage engine keeps the values it is given and either serves
    every statement of a request or fails each of them with one
    [SQLAlchemyError]; uncaught exceptions reach Flask's handlers as in a
    production (non-debug) deployment. *)

From Stdlib Require Import ZArith NArith List Ascii String Bool Lia.
From Stdlib Require Import Floats.SpecFloat.
From stdpp Require Import base option gmap list fin_maps.

Set Warnings "-register-all".

(** ** Python strings *)

Module PyStr.

(** A Python [str] is a sequence of Unicode code points. *)
Abbreviation char := N (only parsing).
Abbreviation str := (list N) (only parsing).

(** ASCII literals of the source. *)
Definition lit (s : string) : str :=
  List.map N_of_ascii (list_ascii_of_string s).

(** [str.isspace] on one code point: the characters CPython's
    [_PyUnicode_IsWhitespace] accepts. *)
Definition isspace (c : char) : bool :=
  ((9 <=? c) && (c <=? 13) ||
   (28 <=? c) && (c <=? 32) ||
   (c =? 133) || (c =? 160) || (c =? 5760) ||
   (8192 <=? c) && (c <=? 8202) ||
   (c =? 8232) || (c =? 8233) || (c =? 8239) || (c =? 8287) ||
   (c =? 12288))%N.

Fixpoint lstrip (s : str) : str :=
  match s with
  | [] => []
  | c :: s' => if isspace c then lstrip s' else s
  end.

Definition rstrip (s : str) : str := rev (lstrip (rev s)).

(** [s.strip()] with no argument. *)
Definition strip (s : str) : str := rstrip (lstrip s).

(** Empty or made of whitespace only. *)
Definition blank (s : str) : bool := forallb isspace s.

Fixpoint startswith (s p : str) {struct p} : bool :=
  match p, s with
  | [], _ => true
  | _ :: _, [] => false
  | a :: p', b :: s' => (a =? b)%N && startswith s' p'
  end.

(** [sub in s] on two strings: substring test. *)
Fixpoint contains (s sub : str) : bool :=
  startswith s sub ||
  match s with
  | [] => false
  | _ :: s' => contains s' sub
  end.

Definition eqb (a b : str) : bool := bool_decide (a = b).

End PyStr.

(** ** Python values decoded from JSON *)

Module PyVal.
Import PyStr.

Inductive pyval : Type :=
| PNone
| PBool (b : bool)
| PInt (n : Z)
| PFloat (f : spec_float)
| PStr (s : list N)
| PList (l : list pyval)
| PDict (m : gmap (list N) pyval).

(** The exceptions the modelled code can raise. [NotFound] is
    werkzeug's HTTP 404 exception, raised by [get_or_404]. *)
Inductive exn : Type :=
| SQLAlchemyError (msg : str)
| AttributeError
| TypeError
| KeyError
| NotFound.

Inductive outcome (A : Type) : Type :=
| Ok (a : A)
| Raise (e : exn).
Arguments Ok {A} a.
Arguments Raise {A} e.

(** [bool(v)] *)
Definition truthy (v : pyval) : bool :=
  match v with
  | PNone => false
  | PBool b => b
  | PInt n => negb (n =? 0)%Z
  | PFloat f => match f with S754_zero _ => false | _ => true end
  | PStr s => match s with [] => false | _ => true end
  | PList l => match l with [] => false | _ => true end
  | PDict m => negb (bool_decide (m = ∅))
  end.

(** [k in v] for a string [k] *)
Definition py_in (k : str) (v : pyval) : outcome bool :=
  match v with
  | PDict m => Ok (bool_decide (is_Some (m !! k)))
  | PList l =>
      Ok (existsb (fun x => match x with PStr s => PyStr.eqb k s | _ => false end) l)
  | PStr s => Ok (contains s k)
  | PNone | PBool _ | PInt _ | PFloat _ => Raise TypeError
  end.

(** [v[k]] for a string [k] *)
Definition py_getitem (k : str) (v : pyval) : outcome pyval :=
  match v with
  | PDict m => match m !! k with Some x => Ok x | None => Raise KeyError end
  | _ => Raise TypeError
  end.

(** [v.get(k)]: only dicts have the method. *)
Definition py_get (k : str) (v : pyval) : outcome pyval :=
  match v with
  | PDict m => Ok (default PNone (m !! k))
  | _ => Raise AttributeError
  end.

(** [v.strip()]: only strings have the method. *)
Definition py_strip (v : pyval) : outcome str :=
  match v with
  | PStr s => Ok (strip s)
  | _ => Raise AttributeError
  end.

(** Field of a JSON object, for reading responses. *)
Definition field (k : str) (v : pyval) : option pyval :=
  match v with
  | PDict m => m !! k
  | _ => None
  end.

End PyVal.

(** ** UTC datetimes and their two renderings *)

Module DateTime.
Import PyStr.

(** The value of [datetime.now(timezone.utc)]: the fields of an aware
    datetime whose offset is zero. *)
Record datetime : Type := mkDatetime {
  year : N; month : N; day : N;
  hour : N; minute : N; second : N;
  microsecond : N
}.

(** The ranges Python's [datetime] type enforces on its fields. *)
Definition in_range (d : datetime) : bool :=
  ((1 <=? year d) && (year d <=? 9999) &&
   (1 <=? month d) && (month d <=? 12) &&
   (1 <=? day d) && (day d <=? 31) &&
   (hour d <=? 23) && (minute d <=? 59) && (second d <=? 59) &&
   (microsecond d <=? 999999))%N.

Definition digit (n : N) : char := (48 + n mod 10)%N.

(** The [w] low decimal digits of [n], most significant first: what
    a zero-padded directive of width [w] prints for [n < 10^w]. *)
Fixpoint zfill (w : nat) (n : N) : str :=
  match w with
  | O => []
  | S w' => zfill w' (n / 10) ++ [digit n]
  end.

(** [d.strftime('%Y-%m-%dT%H:%M:%S')], the part both renderings share
    ([%Y] as documented: four digits). *)
Definition date_time_seconds (d : datetime) : str :=
  zfill 4 (year d) ++ lit "-" ++ zfill 2 (month d) ++ lit "-" ++
  zfill 2 (day d) ++ lit "T" ++ zfill 2 (hour d) ++ lit ":" ++
  zfill 2 (minute d) ++ lit ":" ++ zfill 2 (second d).

(** [d.strftime('%Y-%m-%dT%H:%M:%S.%fZ')] *)
Definition strftime_z (d : datetime) : str :=
  date_time_seconds d ++ lit "." ++ zfill 6 (microsecond d) ++ lit "Z".

(** [d.isoformat()] for an aware UTC datetime: the fraction is left
    out when the microsecond is zero, the offset is spelled out. *)
Definition isoformat (d : datetime) : str :=
  date_time_seconds d ++
  (if (microsecond d =? 0)%N then [] else lit "." ++ zfill 6 (microsecond d)) ++
  lit "+00:00".

(** *** The textual format YYYY-MM-DDTHH:MM:SS.ffffffZ *)

Definition isdigit (c : char) : bool := ((48 <=? c) && (c <=? 57))%N.

(** In a template the letters Y, M, D, H, S and f stand for one
    decimal digit except that the T after the date and the final Z
    are literal; a template is matched position by position. *)
Inductive slot : Type :=
| Digit
| Exactly (c : char).

Definition z_template : list slot :=
  [Digit; Digit; Digit; Digit; Exactly 45; Digit; Digit; Exactly 45;
   Digit; Digit; Exactly 84; Digit; Digit; Exactly 58; Digit; Digit;
   Exactly 58; Digit; Digit; Exactly 46;
   Digit; Digit; Digit; Digit; Digit; Digit; Exactly 90]%N.

Fixpoint fits (t : list slot) (s : str) : bool :=
  match t, s with
  | [], [] => true
  | Digit :: t', c :: s' => isdigit c && fits t' s'
  | Exactly a :: t', c :: s' => (a =? c)%N && fits t' s'
  | _, _ => false
  end.

Definition is_z_format (s : str) : bool := fits z_template s.

(** Reading the digits back. *)
Definition undigits (s : str) : N :=
  fold_left (fun acc c => (10 * acc + (c - 48))%N) s 0%N.

Definition slice (from len : nat) (s : str) : str := take len (drop from s).

(** The datetime a text in the format denotes. *)
Definition parse_z (s : str) : datetime :=
  {| year := undigits (slice 0 4 s);
     month := undigits (slice 5 2 s);
     day := undigits (slice 8 2 s);
     hour := undigits (slice 11 2 s);
     minute := undigits (slice 14 2 s);
     second := undigits (slice 17 2 s);
     microsecond := undigits (slice 20 6 s) |}.

Definition endswith (s suffix : str) : bool :=
  startswith (rev s) (rev suffix).

End DateTime.

(** ** The application *)

Module App.
Import PyStr PyVal DateTime.

(** *** The model class [Record] (table [records]) *)

Record record : Type := mkRecord {
  id : Z;
  name : str;
  message : str;
  note : option str;
  created_at : option datetime;
  updated_at : option datetime
}.

Definition set_name (s : str) (r : record) : record :=
  mkRecord (id r) s (message r) (note r) (created_at r) (updated_at r).
Definition set_message (s : str) (r : record) : record :=
  mkRecord (id r) (name r) s (note r) (created_at r) (updated_at r).
Definition set_note (s : option str) (r : record) : record :=
  mkRecord (id r) (name r) (message r) s (created_at r) (updated_at r).
Definition set_updated_at (t : option datetime) (r : record) : record :=
  mkRecord (id r) (name r) (message r) (note r) (created_at r) t.

(** *** The world a request runs in

    [table] is the durable content of [records]; [next_id] is the next
    primary key the engine hands out; [clock] lists the readings that
    successive calls of [datetime.now(timezone.utc)] return and [tick]
    counts the calls made so far; [outage] is the error the storage
    engine raises on every statement, if it is failing. *)
Record world : Type := mkWorld {
  table : gmap Z record;
  next_id : Z;
  clock : nat -> datetime;
  tick : nat;
  outage : option str
}.

Definition set_table (t : gmap Z record) (w : world) : world :=
  mkWorld t (next_id w) (clock w) (tick w) (outage w).

(** *** Computations: state and exceptions *)

Definition M (A : Type) : Type := world -> outcome A * world.

#[global] Instance M_ret : MRet M := fun A a w => (Ok a, w).

#[global] Instance M_bind : MBind M := fun A B f m w =>
  match m w with
  | (Ok a, w') => f a w'
  | (Raise e, w') => (Raise e, w')
  end.

Definition raise {A : Type} (e : exn) : M A := fun w => (Raise e, w).

Definition lift {A : Type} (o : outcome A) : M A := fun w => (o, w).

(** [try: m  except ...: h]: [h e] is the handler of the clause that
    catches [e], if one does. *)
Definition try_except {A : Type} (m : M A) (h : exn -> option (M A)) : M A :=
  fun w =>
    match m w with
    | (Ok a, w') => (Ok a, w')
    | (Raise e, w') =>
        match h e with
        | Some k => k w'
        | None => (Raise e, w')
        end
    end.

Definition gets {A : Type} (f : world -> A) : M A := fun w => (Ok (f w), w).

Definition modify (f : world -> world) : M unit := fun w => (Ok tt, f w).

(** [datetime.now(timezone.utc)] *)
Definition now : M datetime := fun w =>
  (Ok (clock w (tick w)),
   mkWorld (table w) (next_id w) (clock w) (S (tick w)) (outage w)).

(** Every statement sent to the storage engine. *)
Definition engine : M unit := fun w =>
  match outage w with
  | Some msg => (Raise (SQLAlchemyError msg), w)
  | None => (Ok tt, w)
  end.

(** [Record.query.all()] *)
Definition query_all : M (list record) :=
  _ ← engine; gets (fun w => snd <$> map_to_list (table w)).

(** [Record.query.get_or_404(record_id)] *)
Definition get_or_404 (record_id : Z) : M record :=
  _ ← engine;
  found ← gets (fun w => table w !! record_id);
  match found with
  | Some r => mret r
  | None => raise NotFound
  end.

(** [db.session.add(Record(name=.., message=.., note=..))] followed by
    [db.session.commit()]: the INSERT takes the primary key from the
    engine and evaluates the two column defaults, [created_at] then
    [updated_at], each of which reads the clock. *)
Definition add_commit (name message : str) (note : option str) : M record :=
  _ ← engine;
  created ← now;
  updated ← now;
  key ← gets next_id;
  let r := mkRecord key name message note (Some created) (Some updated) in
  _ ← modify (fun w => mkWorld (<[key := r]> (table w)) (key + 1)
                               (clock w) (tick w) (outage w));
  mret r.

(** [db.session.commit()] after a loaded record was changed. *)
Definition commit_update (r : record) : M unit :=
  _ ← engine; modify (fun w => set_table (<[id r := r]> (table w)) w).

(** [db.session.delete(record)] followed by [db.session.commit()] *)
Definition delete_commit (r : record) : M unit :=
  _ ← engine; modify (fun w => set_table (delete (id r) (table w)) w).

(** [db.session.rollback()]: pending changes never reach [table]. *)
Definition rollback : M unit := mret tt.

(** *** Keys and messages of the source *)

Definition k_id : str := lit "id".
Definition k_name : str := lit "name".
Definition k_message : str := lit "message".
Definition k_note : str := lit "note".
Definition k_createdAt : str := lit "createdAt".
Definition k_updatedAt : str := lit "updatedAt".
Definition k_error : str := lit "error".
Definition k_record : str := lit "record".
Definition k_records : str := lit "records".
Definition k_total : str := lit "total".
Definition k_status : str := lit "status".
Definition k_timestamp : str := lit "timestamp".

Record response : Type := mkResponse {
  status : Z;
  body : pyval
}.

(** [jsonify({...}), code] *)
Definition jsonify (fields : list (str * pyval)) (code : Z) : response :=
  mkResponse code (PDict (list_to_map fields)).

Definition error_body (msg : str) (code : Z) : response :=
  jsonify [(k_error, PStr msg)] code.

(** *** Methods of [Record] *)

Definition time_json (t : option datetime) : pyval :=
  match t with
  | Some d => PStr (strftime_z d)
  | None => PNone
  end.

Definition to_dict (self : record) : list (str * pyval) :=
  [ (k_id, PInt (id self));
    (k_name, PStr (name self));
    (k_message, PStr (message self));
    (k_note, match note self with Some s => PStr s | None => PNone end);
    (k_createdAt, time_json (created_at self));
    (k_updatedAt, time_json (updated_at self)) ].

(** [if k in data and data[k].strip(): setter(data[k].strip())], the
    statement of lines 42-43 and 44-45. *)
Definition update_required (k : str) (setter : str -> record -> record)
    (data : pyval) (self : record) : M record :=
  present ← lift (py_in k data);
  if (present : bool) then
    v ← lift (py_getitem k data);
    s ← lift (py_strip v);
    if truthy (PStr s) then
      v' ← lift (py_getitem k data);
      s' ← lift (py_strip v');
      mret (setter s' self)
    else mret self
  else mret self.

(** [if 'note' in data: self.note = data['note'].strip() if data['note'] else None] *)
Definition update_note (data : pyval) (self : record) : M record :=
  present ← lift (py_in k_note data);
  if (present : bool) then
    c ← lift (py_getitem k_note data);
    if truthy c then
      v ← lift (py_getitem k_note data);
      s ← lift (py_strip v);
      mret (set_note (Some s) self)
    else mret (set_note None self)
  else mret self.

Definition update_from_dict (self : record) (data : pyval) : M record :=
  self ← update_required k_name set_name data self;
  self ← update_required k_message set_message data self;
  self ← update_note data self;
  t ← now;
  mret (set_updated_at (Some t) self).

(** *** View functions *)

Definition catch_sqlalchemy (h : str -> M response) (e : exn) : option (M response) :=
  match e with
  | SQLAlchemyError msg => Some (h msg)
  | _ => None
  end.

Definition get_records : M response :=
  try_except
    (records ← query_all;
     mret (jsonify [ (k_records, PList ((fun r => PDict (list_to_map (to_dict r))) <$> records));
                     (k_total, PInt (Z.of_nat (length records))) ] 200))
    (catch_sqlalchemy (fun msg => mret (error_body msg 500))).

(** [not data or not data.get('name') or not data.get('message')] *)
Definition create_rejects (data : pyval) : M bool :=
  if negb (truthy data) then mret true
  else
    n ← lift (py_get k_name data);
    if negb (truthy n) then mret true
    else
      m ← lift (py_get k_message data);
      mret (negb (truthy m)).

Definition create_record (data : pyval) : M response :=
  rejected ← create_rejects data;
  if (rejected : bool) then
    mret (error_body (lit "Name and message are required") 400)
  else
    try_except
      (n ← lift (py_get k_name data);
       name ← lift (py_strip n);
       m ← lift (py_get k_message data);
       message ← lift (py_strip m);
       c ← lift (py_get k_note data);
       note ← (if truthy c then
                 v ← lift (py_get k_note data);
                 s ← lift (py_strip v);
                 mret (Some s)
               else mret None);
       new_record ← add_commit name message note;
       mret (jsonify (to_dict new_record) 201))
      (catch_sqlalchemy (fun msg =>
         _ ← rollback; mret (error_body msg 500))).

Definition health_check : M response :=
  t ← now;
  mret (jsonify [ (k_status, PStr (lit "OK"));
                  (k_message, PStr (lit "Flask API is running"));
                  (k_timestamp, PStr (isoformat t)) ] 200).

Definition update_record (record_id : Z) (data : pyval) : M response :=
  try_except
    (record ← get_or_404 record_id;
     if negb (truthy data) then
       mret (error_body (lit "No data provided") 400)
     else
       record ← update_from_dict record data;
       _ ← commit_update record;
       mret (jsonify [ (k_message, PStr (lit "Record updated successfully"));
                       (k_record, PDict (list_to_map (to_dict record))) ] 200))
    (catch_sqlalchemy (fun msg =>
       _ ← rollback;
       mret (error_body (lit "Failed to update record: " ++ msg) 500))).

Definition delete_record (record_id : Z) : M response :=
  try_except
    (record ← get_or_404 record_id;
     _ ← delete_commit record;
     mret (jsonify [ (k_message, PStr (lit "Record deleted successfully")) ] 200))
    (catch_sqlalchemy (fun msg =>
       _ ← rollback;
       mret (error_body (lit "Failed to delete record: " ++ msg) 500))).

(** *** Error handlers *)

Definition not_found : response := error_body (lit "Endpoint not found") 404.

Definition internal_error : response := error_body (lit "Internal server error") 500.

(** *** Routing and dispatch *)

Inductive request : Type :=
| GET_records
| POST_records (data : pyval)
| GET_root
| PUT_record (record_id : Z) (data : pyval)
| DELETE_record (record_id : Z)
| Unrouted.

Definition route (rq : request) : M response :=
  match rq with
  | GET_records => get_records
  | POST_records data => create_record data
  | GET_root => health_check
  | PUT_record record_id data => update_record record_id data
  | DELETE_record record_id => delete_record record_id
  | Unrouted => raise NotFound
  end.

(** One request: the view's response, or the registered handler of
    the exception that escaped it. *)
Definition serve (rq : request) (w : world) : response * world :=
  match route rq w with
  | (Ok r, w') => (r, w')
  | (Raise NotFound, w') => (not_found, w')
  | (Raise _, w') => (internal_error, w')
  end.

(** *** Reachable worlds *)

Definition initial (clk : nat -> datetime) (o : option str) : world :=
  mkWorld ∅ 1 clk 0 o.

Inductive reachable : world -> Prop :=
| reach_initial clk o : reachable (initial clk o)
| reach_serve w rq : reachable w -> reachable (serve rq w).2.

End App.

(** ** Classes of request bodies and sample worlds *)

Module Cases.
Import PyStr PyVal DateTime App.

(** The exceptions raised by operations on Python values, as opposed
    to those of the storage engine and of the HTTP layer. *)
Definition python_error (e : exn) : bool :=
  match e with
  | AttributeError | TypeError | KeyError => true
  | SQLAlchemyError _ | NotFound => false
  end.

Definition pure_outcome {A : Type} (o : outcome A) : Prop :=
  match o with
  | Ok _ => True
  | Raise e => python_error e = true
  end.

(** The world after one reading of the clock. *)
Definition ticked (w : world) : world :=
  mkWorld (table w) (next_id w) (clock w) (S (tick w)) (outage w).

(** A value of a required field as the JSON contract has it: a string,
    when the key is there at all. *)
Definition str_or_missing (o : option pyval) : bool :=
  match o with
  | None | Some (PStr _) => true
  | Some _ => false
  end.

(** A value of [note]: a string, or a value Python takes for false
    (null, false, 0, an empty list or object). *)
Definition note_ok (o : option pyval) : bool :=
  match o with
  | None | Some (PStr _) => true
  | Some v => negb (truthy v)
  end.

(** A JSON object whose [name], [message] and [note] are of these kinds. *)
Definition string_fields (m : gmap (list N) pyval) : bool :=
  str_or_missing (m !! k_name) && str_or_missing (m !! k_message) &&
  note_ok (m !! k_note).

(** Key [k] is present and maps to a string that is empty once trimmed. *)
Definition blank_at (k : str) (m : gmap (list N) pyval) : Prop :=
  ∃ s, m !! k = Some (PStr s) ∧ strip s = [].

(** What [create_record] and [update_note] make of a [note] value. *)
Definition note_of (o : option pyval) : option str :=
  match o with
  | Some (PStr s) => if truthy (PStr s) then Some (strip s) else None
  | _ => None
  end.

(** The fields [update_from_dict] leaves in [self] for a JSON object
    [m] of such fields, [updated_at] apart. *)
Definition apply_fields (m : gmap (list N) pyval) (self : record) : record :=
  let r1 := match m !! k_name with
            | Some (PStr s) =>
                if truthy (PStr (strip s)) then set_name (strip s) self else self
            | _ => self
            end in
  let r2 := match m !! k_message with
            | Some (PStr s) =>
                if truthy (PStr (strip s)) then set_message (strip s) r1 else r1
            | _ => r1
            end in
  match m !! k_note with
  | Some v => set_note (note_of (Some v)) r2
  | None => r2
  end.

Definition is_mapping (v : pyval) : bool :=
  match v with
  | PDict _ => true
  | _ => false
  end.

(** A clock that advances by one microsecond per reading, from
    2024-05-17 08:30:00 UTC. *)
Definition sample_clock (n : nat) : datetime :=
  mkDatetime 2024 5 17 8 30 0 (N.of_nat n).

Definition empty_world : world := initial sample_clock None.

(** A JSON object written with ASCII keys. *)
Definition object (fields : list (string * pyval)) : pyval :=
  PDict (list_to_map (prod_map lit (fun v => v) <$> fields)).

Local Open Scope string_scope.

(** The world after POST {"name": "A", "message": "B", "note": "n"}. *)
Definition one_record_world : world :=
  (serve (POST_records (object [("name", PStr (lit "A")); ("message", PStr (lit "B"));
                                ("note", PStr (lit "n"))])) empty_world).2.

(** The row that world holds under key 1. *)
Definition sample_record : record :=
  mkRecord 1 (lit "A") (lit "B") (Some (lit "n"))
           (Some (sample_clock 0)) (Some (sample_clock 1)).

End Cases.

(** ** Rows, and what a request makes of them *)

Module Rows.
Import PyStr PyVal DateTime App Cases.

(** No whitespace at either end. *)
Definition trimmed (s : list N) : Prop := strip s = s.

(** The row the INSERT of [create_record] builds in world [w] from the
    untrimmed name and message and the note already normalised. *)
Definition created_row (w : world) (n msg : list N) (nt : option (list N)) : record :=
  mkRecord (next_id w) (strip n) (strip msg) nt
           (Some (clock w (tick w))) (Some (clock w (S (tick w)))).

(** The world after that INSERT was committed. *)
Definition after_insert (w : world) (r : record) : world :=
  mkWorld (<[next_id w := r]> (table w)) (next_id w + 1)
          (clock w) (S (S (tick w))) (outage w).

(** The world after the UPDATE of row [r] was committed. *)
Definition after_update (w : world) (r : record) : world :=
  set_table (<[id r := r]> (table w)) (ticked w).

(** How [update_from_dict], run in world [w], can relate the record it
    returns to the one it was given. *)
Definition derived (w : world) (self self' : record) : Prop :=
  id self' = id self ∧
  created_at self' = created_at self ∧
  (name self' = name self ∨ ∃ s, name self' = strip s) ∧
  (message self' = message self ∨ ∃ s, message self' = strip s) ∧
  (note self' = note self ∨ note self' = None ∨ ∃ s, note self' = Some (strip s)) ∧
  updated_at self' = Some (clock w (tick w)).

(** A row as the views leave it in the table under key [i]. *)
Definition row_ok (i : Z) (r : record) : Prop :=
  id r = i ∧
  trimmed (name r) ∧ trimmed (message r) ∧
  (∀ s, note r = Some s → trimmed s) ∧
  is_Some (created_at r) ∧ is_Some (updated_at r).

(** A view that ended without a success status. *)
Definition failed (o : outcome response) : Prop :=
  match o with
  | Ok resp => status resp = 400%Z ∨ status resp = 500%Z
  | Raise e => python_error e = true ∨ e = NotFound
  end.

(** The same for a view that looks no record up. *)
Definition refused (o : outcome response) : Prop :=
  match o with
  | Ok resp => status resp = 400%Z ∨ status resp = 500%Z
  | Raise e => python_error e = true
  end.

(** The sample world with a storage engine that fails every statement. *)
Definition outage_world (msg : list N) : world :=
  mkWorld (table one_record_world) (next_id one_record_world)
          (clock one_record_world) (tick one_record_world) (Some msg).

(** The records listed by a response of [get_records]. *)
Definition listed (resp : response) : list pyval :=
  match field k_records (body resp) with
  | Some (PList l) => l
  | _ => []
  end.

(** A sequence of requests served one after the other. *)
Definition serve_all (rqs : list request) (w : world) : world :=
  fold_left (fun w rq => (serve rq w).2) rqs w.

(** A value that is a Python string. *)
Definition is_str (v : pyval) : bool :=
  match v with
  | PStr _ => true
  | _ => false
  end.

(** A boolean or a number. *)
Definition is_scalar (v : pyval) : bool :=
  match v with
  | PBool _ | PInt _ | PFloat _ => true
  | _ => false
  end.

(** A JSON object [create_record] accepts: [name] and [message] are
    non-empty strings and [note] is a string or false for Python. *)
Definition creatable (m : gmap (list N) pyval) : bool :=
  match m !! k_name, m !! k_message with
  | Some (PStr (_ :: _)), Some (PStr (_ :: _)) => note_ok (m !! k_note)
  | _, _ => false
  end.

(** Reading a record back from its JSON object. *)
Definition time_of_json (v : option pyval) : option datetime :=
  match v with
  | Some (PStr s) => Some (parse_z s)
  | _ => None
  end.

Definition str_of_json (v : option pyval) : list N :=
  match v with
  | Some (PStr s) => s
  | _ => []
  end.

Definition from_dict (v : pyval) : record :=
  mkRecord (match field k_id v with Some (PInt i) => i | _ => 0 end)
           (str_of_json (field k_name v))
           (str_of_json (field k_message v))
           (match field k_note v with Some (PStr s) => Some s | _ => None end)
           (time_of_json (field k_createdAt v))
           (time_of_json (field k_updatedAt v)).

(** Both timestamps of a row, when set, are datetimes in range. *)
Definition times_in_range (r : record) : bool :=
  match created_at r with Some d => in_range d | None => true end &&
  match updated_at r with Some d => in_range d | None => true end.

End Rows.

(** * Properties *)

Import PyStr PyVal DateTime App Cases Rows.

(** Unfolds the view functions and the monad down to pattern matching on
    the world and on the request body. *)
Ltac run :=
  cbv beta iota delta
    [serve route get_records create_record create_rejects health_check
     update_record delete_record update_from_dict update_required update_note
     catch_sqlalchemy try_except get_or_404 query_all add_commit commit_update
     delete_commit rollback engine now gets modify lift raise
     mbind mret M_bind M_ret py_in py_getitem py_get py_strip].

Ltac run_in H :=
  cbv beta iota delta
    [serve route get_records create_record create_rejects health_check
     update_record delete_record update_from_dict update_required update_note
     catch_sqlalchemy try_except get_or_404 query_all add_commit commit_update
     delete_commit rollback engine now gets modify lift raise
     mbind mret M_bind M_ret py_in py_getitem py_get py_strip] in H.

(** Closes a goal [∃ o, (o', w) = (o, w) ∧ pure_outcome o]. *)
Ltac pure_done := eexists; split; [reflexivity | first [exact I | reflexivity]].

(** ** Trimming *)

Section Strip.

Lemma lstrip_head (s : str) :
  lstrip s = [] ∨ ∃ c t, lstrip s = c :: t ∧ isspace c = false.
Proof.
  induction s as [|c s IH]; [left; reflexivity|].
  cbn [lstrip]. destruct (isspace c) eqn:E; [exact IH|].
  right. exists c, s. split; [reflexivity | exact E].
Qed.

Lemma lstrip_nil_blank (s : str) : lstrip s = [] ↔ blank s = true.
Proof.
  induction s as [|c s IH]; [split; reflexivity|].
  cbn [lstrip blank forallb]. destruct (isspace c); cbn [andb].
  - exact IH.
  - split; discriminate.
Qed.

Lemma blank_rev (s : str) : blank (rev s) = blank s.
Proof.
  unfold blank. induction s as [|c s IH]; [reflexivity|].
  cbn [rev forallb]. rewrite forallb_app, IH. cbn [forallb].
  rewrite andb_true_r. apply andb_comm.
Qed.

Lemma strip_nil_iff_blank (s : str) : strip s = [] ↔ blank s = true.
Proof.
  unfold strip, rstrip. split.
  - intros H. apply (f_equal (@rev N)) in H. rewrite rev_involutive in H.
    cbn [rev] in H. apply lstrip_nil_blank in H. rewrite blank_rev in H.
    destruct (lstrip_head s) as [E | (c & t & E & Hc)].
    + apply lstrip_nil_blank, E.
    + rewrite E in H. cbn [blank forallb] in H. rewrite Hc in H. discriminate H.
  - intros H. apply lstrip_nil_blank in H. rewrite H. reflexivity.
Qed.

Lemma strip_not_blank (s : str) : strip s ≠ [] → blank (strip s) = false.
Proof.
  unfold strip, rstrip. intros H. rewrite blank_rev.
  destruct (lstrip_head (rev (lstrip s))) as [E | (c & t & E & Hc)].
  - rewrite E in H. contradiction H. reflexivity.
  - rewrite E. cbn [blank forallb]. rewrite Hc. reflexivity.
Qed.

Lemma truthy_strip_nil (s : str) : strip s = [] → truthy (PStr (strip s)) = false.
Proof. intros ->. reflexivity. Qed.

Lemma truthy_str (s : str) : truthy (PStr s) = true ↔ s ≠ [].
Proof. destruct s; cbn; split; congruence. Qed.

End Strip.

(** ** [update_from_dict], statement by statement *)

Section UpdateFromDict.

Lemma update_required_dict k setter m self w :
  update_required k setter (PDict m) self w =
  match m !! k with
  | None => (Ok self, w)
  | Some (PStr s) =>
      (Ok (if truthy (PStr (strip s)) then setter (strip s) self else self), w)
  | Some _ => (Raise AttributeError, w)
  end.
Proof.
  run. destruct (m !! k) as [v|] eqn:E.
  - rewrite bool_decide_true by eauto.
    destruct v; try reflexivity.
    destruct (truthy (PStr (strip s))); reflexivity.
  - rewrite bool_decide_false by (intros [? ?]; discriminate). reflexivity.
Qed.

Lemma update_note_dict m self w :
  update_note (PDict m) self w =
  match m !! k_note with
  | None => (Ok self, w)
  | Some v =>
      if truthy v then
        match v with
        | PStr s => (Ok (set_note (Some (strip s)) self), w)
        | _ => (Raise AttributeError, w)
        end
      else (Ok (set_note None self), w)
  end.
Proof.
  run. destruct (m !! k_note) as [v|] eqn:E.
  - rewrite bool_decide_true by eauto.
    destruct (truthy v); [|reflexivity]. destruct v; reflexivity.
  - rewrite bool_decide_false by (intros [? ?]; discriminate). reflexivity.
Qed.

(** On any body the two kinds of statement leave the world alone and
    raise nothing but Python errors. *)
Lemma update_required_pure k setter data self w :
  ∃ o, update_required k setter data self w = (o, w) ∧ pure_outcome o.
Proof.
  destruct data as [ | b | n | f | s | l | m ].
  7:{ rewrite update_required_dict. destruct (m !! k) as [[]|]; pure_done. }
  all: run.
  1-4: pure_done.
  - destruct (contains s k); pure_done.
  - match goal with |- context [existsb ?f ?l] => destruct (existsb f l) end;
      pure_done.
Qed.

Lemma update_note_pure data self w :
  ∃ o, update_note data self w = (o, w) ∧ pure_outcome o.
Proof.
  destruct data as [ | b | n | f | s | l | m ].
  7:{ rewrite update_note_dict. destruct (m !! k_note) as [v|]; [|pure_done].
      destruct (truthy v); [destruct v|]; pure_done. }
  all: run.
  1-4: pure_done.
  - destruct (contains s k_note); pure_done.
  - match goal with |- context [existsb ?f ?l] => destruct (existsb f l) end;
      pure_done.
Qed.

(** [update_from_dict] either returns after exactly one reading of the
    clock or raises a Python error before any. *)
Lemma update_from_dict_outcome self data w :
  (∃ self', update_from_dict self data w = (Ok self', ticked w)) ∨
  (∃ e, update_from_dict self data w = (Raise e, w) ∧ python_error e = true).
Proof.
  unfold update_from_dict. cbv beta iota delta [mbind M_bind].
  destruct (update_required_pure k_name set_name data self w) as [o1 [-> P1]].
  destruct o1 as [s1|e1]; [|right; eauto].
  destruct (update_required_pure k_message set_message data s1 w) as [o2 [-> P2]].
  destruct o2 as [s2|e2]; [|right; eauto].
  destruct (update_note_pure data s2 w) as [o3 [-> P3]].
  destruct o3 as [s3|e3]; [|right; eauto].
  left. eexists. reflexivity.
Qed.

Lemma nonempty_of_lookup (m : gmap (list N) pyval) k v :
  m !! k = Some v → truthy (PDict m) = true.
Proof.
  intros H. cbn [truthy]. rewrite bool_decide_false; [reflexivity|].
  intros ->. rewrite lookup_empty in H. discriminate H.
Qed.

(** On a JSON object with fields of the expected kinds the whole
    method is a function of the three lookups. *)
Lemma update_from_dict_fields self m w :
  string_fields m = true →
  update_from_dict self (PDict m) w =
  (Ok (set_updated_at (Some (clock w (tick w))) (apply_fields m self)), ticked w).
Proof.
  unfold string_fields, apply_fields. intros H.
  apply andb_prop in H as [H Hnote]. apply andb_prop in H as [Hname Hmsg].
  unfold update_from_dict. cbv beta iota delta [mbind M_bind].
  rewrite update_required_dict.
  destruct (m !! k_name) as [[ | | | | sn | | ]|]; try discriminate Hname;
    rewrite update_required_dict;
    (destruct (m !! k_message) as [[ | | | | sm | | ]|]; try discriminate Hmsg);
    rewrite update_note_dict;
    (destruct (m !! k_note) as [vn|]; [|reflexivity]);
    (destruct vn as [ | b | n | f | s | l | m' ]; cbn [note_ok] in Hnote;
     try (apply negb_true_iff in Hnote; rewrite Hnote; reflexivity));
    unfold note_of; destruct (truthy (PStr s)); reflexivity.
Qed.

End UpdateFromDict.

(** ** Reading responses *)

Section Responses.

Lemma status_jsonify fields code : status (jsonify fields code) = code.
Proof. reflexivity. Qed.

Lemma to_dict_note (self : record) :
  (list_to_map (to_dict self) : gmap (list N) pyval) !! k_note =
  Some (match note self with Some s => PStr s | None => PNone end).
Proof. reflexivity. Qed.

Lemma to_dict_name (self : record) :
  (list_to_map (to_dict self) : gmap (list N) pyval) !! k_name = Some (PStr (name self)).
Proof. reflexivity. Qed.

Lemma to_dict_createdAt (self : record) :
  (list_to_map (to_dict self) : gmap (list N) pyval) !! k_createdAt =
  Some (time_json (created_at self)).
Proof. reflexivity. Qed.

Lemma to_dict_updatedAt (self : record) :
  (list_to_map (to_dict self) : gmap (list N) pyval) !! k_updatedAt =
  Some (time_json (updated_at self)).
Proof. reflexivity. Qed.

Lemma error_body_field msg code :
  body (error_body msg code) = PDict {[ k_error := PStr msg ]}.
Proof. reflexivity. Qed.

End Responses.

(** ** [create_record] on JSON objects *)

Section Create.

Lemma create_record_rejects m w :
  truthy (default PNone (m !! k_name)) = false ∨
  truthy (default PNone (m !! k_message)) = false →
  create_record (PDict m) w =
  (Ok (error_body (lit "Name and message are required") 400), w).
Proof.
  intros H. run.
  destruct (negb (truthy (PDict m))); [reflexivity|].
  destruct (truthy (default PNone (m !! k_name))) eqn:E1; cbn [negb]; [|reflexivity].
  destruct H as [H|H]; [discriminate H|]. rewrite H. reflexivity.
Qed.

Lemma create_record_accepts m n msg w :
  outage w = None →
  m !! k_name = Some (PStr n) → n ≠ [] →
  m !! k_message = Some (PStr msg) → msg ≠ [] →
  note_ok (m !! k_note) = true →
  create_record (PDict m) w =
  let r := mkRecord (next_id w) (strip n) (strip msg) (note_of (m !! k_note))
             (Some (clock w (tick w))) (Some (clock w (S (tick w)))) in
  (Ok (jsonify (to_dict r) 201),
   mkWorld (<[next_id w := r]> (table w)) (next_id w + 1)
           (clock w) (S (S (tick w))) (outage w)).
Proof.
  intros Ho Hn Hn' Hm Hm' Hnote.
  destruct w as [t key clk n_read o]. cbn [outage] in Ho. subst o. run.
  rewrite (nonempty_of_lookup m k_name _ Hn). cbn [negb].
  rewrite Hn, Hm. cbv beta iota delta [from_option Datatypes.id].
  apply truthy_str in Hn', Hm'. rewrite Hn', Hm'. cbn [negb].
  destruct (m !! k_note) as [v|]; cbv beta iota delta [from_option Datatypes.id].
  - destruct v as [ | b | z | f | s | l | m' ]; cbn [note_ok] in Hnote;
      try (apply negb_true_iff in Hnote; rewrite Hnote);
      try (destruct s as [|c s]); reflexivity.
  - reflexivity.
Qed.

End Create.

(** ** The two renderings of a datetime *)

Section Renderings.

Lemma isdigit_digit (n : N) : isdigit (digit n) = true.
Proof.
  unfold isdigit, digit.
  pose proof (N.mod_upper_bound n 10 ltac:(discriminate)) as H.
  revert H. generalize (n mod 10)%N as x. intros x H.
  apply andb_true_intro. split; apply N.leb_le; lia.
Qed.

Lemma digit_value (n : N) : (digit n - 48 = n mod 10)%N.
Proof. unfold digit. generalize (n mod 10)%N as x. intros x. lia. Qed.

Lemma length_zfill (w : nat) (n : N) : length (zfill w n) = w.
Proof.
  revert n. induction w as [|w IH]; intros n; [reflexivity|].
  cbn [zfill]. rewrite length_app, IH. cbn [length]. lia.
Qed.

Lemma fits_length (t : list slot) (s : str) :
  fits t s = true → length t = length s.
Proof.
  revert s. induction t as [|[|c] t IH]; intros [|a s] H; cbn [fits] in H;
    try discriminate H; try reflexivity;
    apply andb_prop in H as [_ H]; cbn [length]; f_equal; apply IH, H.
Qed.

Lemma undigits_snoc (s : str) (c : N) :
  undigits (s ++ [c]) = (10 * undigits s + (c - 48))%N.
Proof. unfold undigits. rewrite fold_left_app. reflexivity. Qed.

(** Reading back a zero-padded field gives the number, when it fits. *)
Lemma undigits_zfill (w : nat) (n : N) :
  (n < 10 ^ N.of_nat w)%N → undigits (zfill w n) = n.
Proof.
  revert n. induction w as [|w IH]; intros n H.
  - cbn in H. cbn. lia.
  - cbn [zfill]. rewrite undigits_snoc, digit_value, IH.
    + pose proof (N.div_mod n 10 ltac:(discriminate)). lia.
    + rewrite Nat2N.inj_succ, N.pow_succ_r' in H.
      apply N.Div0.div_lt_upper_bound. exact H.
Qed.

Lemma strftime_z_shape (d : datetime) : is_z_format (strftime_z d) = true.
Proof.
  cbv -[digit isdigit N.div].
  rewrite !isdigit_digit. reflexivity.
Qed.

Lemma parse_z_strftime_z (d : datetime) :
  in_range d = true → parse_z (strftime_z d) = d.
Proof.
  unfold in_range. rewrite !andb_true_iff, !N.leb_le.
  intros [[[[[[[[[_ Hy] _] Hm] _] Hd] Hh] Hmi] Hs] Hus].
  destruct d as [y mo dy h mi sc us]. cbn [year month day hour minute second microsecond] in *.
  unfold parse_z.
  f_equal.
  - change (undigits (zfill 4 y) = y). apply undigits_zfill. cbn. lia.
  - change (undigits (zfill 2 mo) = mo). apply undigits_zfill. cbn. lia.
  - change (undigits (zfill 2 dy) = dy). apply undigits_zfill. cbn. lia.
  - change (undigits (zfill 2 h) = h). apply undigits_zfill. cbn. lia.
  - change (undigits (zfill 2 mi) = mi). apply undigits_zfill. cbn. lia.
  - change (undigits (zfill 2 sc) = sc). apply undigits_zfill. cbn. lia.
  - change (undigits (zfill 6 us) = us). apply undigits_zfill. cbn. lia.
Qed.

Lemma length_isoformat (d : datetime) :
  length (isoformat d) = if (microsecond d =? 0)%N then 25 else 32.
Proof.
  unfold isoformat, date_time_seconds.
  destruct (microsecond d =? 0)%N; rewrite !length_app, !length_zfill; reflexivity.
Qed.

Lemma isoformat_not_z (d : datetime) : is_z_format (isoformat d) = false.
Proof.
  destruct (is_z_format (isoformat d)) eqn:E; [|reflexivity].
  apply fits_length in E. rewrite length_isoformat in E.
  destruct (microsecond d =? 0)%N; discriminate E.
Qed.

Lemma endswith_app (s suffix : str) : endswith (s ++ suffix) suffix = true.
Proof.
  unfold endswith. rewrite rev_app_distr.
  generalize (rev suffix) as p. generalize (rev s) as t.
  intros t p. induction p as [|a p IH]; [reflexivity|].
  cbn [app startswith]. rewrite N.eqb_refl. exact IH.
Qed.

Lemma isoformat_offset (d : datetime) : endswith (isoformat d) (lit "+00:00") = true.
Proof.
  unfold isoformat. rewrite app_assoc. apply endswith_app.
Qed.

End Renderings.

(** * The claims *)

(** ** Unknown ids (C9, C10) *)

(** C9. An update or a delete whose id resolves to no record is answered
    with status 404, whatever the body, and leaves the world (the table,
    the id sequence and the clock) exactly as it was. *)
Theorem unknown_id_404_world_unchanged (w : world) (record_id : Z) (data : pyval) :
  outage w = None →
  table w !! record_id = None →
  status (serve (PUT_record record_id data) w).1 = 404%Z ∧
  (serve (PUT_record record_id data) w).2 = w ∧
  status (serve (DELETE_record record_id) w).1 = 404%Z ∧
  (serve (DELETE_record record_id) w).2 = w.
Proof.
  intros Ho Ht. repeat split; run; rewrite Ho, Ht; reflexivity.
Qed.

Lemma unknown_id_404_world_unchanged_witness :
  status (serve (PUT_record 7 (PDict ∅)) one_record_world).1 = 404%Z ∧
  (serve (PUT_record 7 (PDict ∅)) one_record_world).2 = one_record_world ∧
  status (serve (DELETE_record 7) one_record_world).1 = 404%Z ∧
  (serve (DELETE_record 7) one_record_world).2 = one_record_world.
Proof.
  apply (unknown_id_404_world_unchanged one_record_world 7 (PDict ∅));
    vm_compute; reflexivity.
Defined.

(** C10. The body of that 404 answer is exactly {"error": "Endpoint not
    found"}: the answer is the one the 404 handler gives for a path no
    route matches. *)
Theorem unknown_id_body_is_endpoint_not_found (w : world) (record_id : Z) (data : pyval) :
  outage w = None →
  table w !! record_id = None →
  body (serve (PUT_record record_id data) w).1 =
    PDict {[ k_error := PStr (lit "Endpoint not found") ]} ∧
  body (serve (DELETE_record record_id) w).1 =
    PDict {[ k_error := PStr (lit "Endpoint not found") ]} ∧
  (serve (PUT_record record_id data) w).1 = (serve Unrouted w).1 ∧
  (serve (DELETE_record record_id) w).1 = (serve Unrouted w).1.
Proof.
  intros Ho Ht. repeat split; run; rewrite Ho, Ht; reflexivity.
Qed.

Lemma unknown_id_body_is_endpoint_not_found_witness :
  body (serve (PUT_record 7 (PStr (lit "x"))) one_record_world).1 =
    PDict {[ k_error := PStr (lit "Endpoint not found") ]} ∧
  body (serve (DELETE_record 7) one_record_world).1 =
    PDict {[ k_error := PStr (lit "Endpoint not found") ]} ∧
  (serve (PUT_record 7 (PStr (lit "x"))) one_record_world).1 =
    (serve Unrouted one_record_world).1 ∧
  (serve (DELETE_record 7) one_record_world).1 = (serve Unrouted one_record_world).1.
Proof.
  apply (unknown_id_body_is_endpoint_not_found one_record_world 7 (PStr (lit "x")));
    vm_compute; reflexivity.
Defined.

(** ** Whitespace-only values pass the emptiness tests (C1, C2, C4, C5) *)

(** A required field that is missing, null or the empty string is
    rejected with 400 and nothing is stored. *)
Lemma create_missing_or_empty_rejected (w : world) (m : gmap (list N) pyval) :
  truthy (default PNone (m !! k_name)) = false ∨
  truthy (default PNone (m !! k_message)) = false →
  status (serve (POST_records (PDict m)) w).1 = 400%Z ∧
  (serve (POST_records (PDict m)) w).2 = w.
Proof.
  intros H. unfold serve, route. rewrite (create_record_rejects m w H).
  split; reflexivity.
Qed.

(** C1, at the input where the code departs from it: the name " " is
    empty after trimming, yet the create request is answered 201 and a
    record whose name is the empty string is stored under key 1. *)
Theorem create_whitespace_name_is_persisted :
  strip (lit " ") = [] ∧
  status (serve (POST_records (object [("name", PStr (lit " "));
                                       ("message", PStr (lit "hi"))]%string))
                empty_world).1 = 201%Z ∧
  name <$> table (serve (POST_records (object [("name", PStr (lit " "));
                                               ("message", PStr (lit "hi"))]%string))
                        empty_world).2 !! 1%Z = Some [].
Proof. repeat split; vm_compute; reflexivity. Qed.

(** C2, at the state where the code departs from it: one successful
    create leads to a world whose record 1 has a blank name and a blank
    message. *)
Theorem reachable_record_with_blank_fields :
  ∃ w r, reachable w ∧ table w !! 1%Z = Some r ∧
         blank (name r) = true ∧ blank (message r) = true.
Proof.
  exists (serve (POST_records (object [("name", PStr (lit "  "));
                                       ("message", PStr (lit " "))]%string))
                empty_world).2.
  eexists. split; [apply reach_serve, reach_initial|].
  split; [vm_compute; reflexivity|]. split; reflexivity.
Qed.

(** C4, at the input where the code departs from it: record 1 has the
    note "n"; an update whose note is two spaces is answered 200 and
    leaves the empty string, not an absent note, in the record. *)
Theorem update_whitespace_note_stores_empty_string :
  note <$> table one_record_world !! 1%Z = Some (Some (lit "n")) ∧
  status (serve (PUT_record 1 (object [("note", PStr (lit "  "))]%string))
                one_record_world).1 = 200%Z ∧
  note <$> table (serve (PUT_record 1 (object [("note", PStr (lit "  "))]%string))
                        one_record_world).2 !! 1%Z = Some (Some []).
Proof. repeat split; vm_compute; reflexivity. Qed.

(** C5, at the input where the code departs from it: a create request
    whose note is two spaces is answered 201; the stored note and the
    note of the response are the empty string, not null. *)
Theorem create_whitespace_note_stores_empty_string :
  status (serve (POST_records (object [("name", PStr (lit "A")); ("message", PStr (lit "B"));
                                       ("note", PStr (lit "  "))]%string))
                empty_world).1 = 201%Z ∧
  note <$> table (serve (POST_records (object [("name", PStr (lit "A"));
                                               ("message", PStr (lit "B"));
                                               ("note", PStr (lit "  "))]%string))
                        empty_world).2 !! 1%Z = Some (Some []) ∧
  field k_note (body (serve (POST_records (object [("name", PStr (lit "A"));
                                                   ("message", PStr (lit "B"));
                                                   ("note", PStr (lit "  "))]%string))
                            empty_world).1) = Some (PStr []).
Proof. repeat split; vm_compute; reflexivity. Qed.

(** ** Partial update (C3, C7) *)

(** What [update_record] does with a JSON object of string fields sent
    for an existing record. *)
Lemma update_record_fields (w : world) (record_id : Z) (r : record)
    (m : gmap (list N) pyval) :
  outage w = None →
  table w !! record_id = Some r →
  m ≠ ∅ →
  string_fields m = true →
  update_record record_id (PDict m) w =
  let r' := set_updated_at (Some (clock w (tick w))) (apply_fields m r) in
  (Ok (jsonify [ (k_message, PStr (lit "Record updated successfully"));
                 (k_record, PDict (list_to_map (to_dict r'))) ] 200),
   set_table (<[id r' := r']> (table w)) (ticked w)).
Proof.
  intros Ho Ht Hm Hf.
  cbv beta iota delta
    [update_record try_except get_or_404 engine gets mbind M_bind mret M_ret].
  rewrite Ho, Ht. cbn [truthy]. rewrite bool_decide_false by exact Hm. cbn [negb].
  rewrite (update_from_dict_fields r m w Hf).
  cbv beta iota delta [commit_update engine modify mbind M_bind mret M_ret ticked].
  cbn [outage]. rewrite Ho. reflexivity.
Qed.

Lemma id_apply_fields m r : id (apply_fields m r) = id r.
Proof.
  unfold apply_fields.
  destruct (m !! k_name) as [[ | | | | sn | | ]|];
    destruct (m !! k_message) as [[ | | | | sm | | ]|];
    destruct (m !! k_note) as [v|];
    cbv zeta;
    repeat match goal with |- context [if ?c then _ else _] => destruct c end;
    reflexivity.
Qed.

Lemma name_apply_fields_blank m r : blank_at k_name m → name (apply_fields m r) = name r.
Proof.
  intros (s & Hs & Hblank). unfold apply_fields.
  rewrite Hs, (truthy_strip_nil s Hblank).
  destruct (m !! k_message) as [[ | | | | sm | | ]|];
    destruct (m !! k_note) as [v|];
    cbv zeta;
    repeat match goal with |- context [if ?c then _ else _] => destruct c end;
    reflexivity.
Qed.

Lemma message_apply_fields_blank m r :
  blank_at k_message m → message (apply_fields m r) = message r.
Proof.
  intros (s & Hs & Hblank). unfold apply_fields.
  rewrite Hs, (truthy_strip_nil s Hblank).
  destruct (m !! k_name) as [[ | | | | sn | | ]|];
    destruct (m !! k_note) as [v|];
    cbv zeta;
    repeat match goal with |- context [if ?c then _ else _] => destruct c end;
    reflexivity.
Qed.

(** C3. For an existing record and a JSON object whose name (or
    message) is present and empty after trimming, the other fields being
    strings: the update is answered 200, the stored and returned record
    keeps its previous name (or message), and its updated_at is the
    reading of the clock taken during the request. *)
Theorem update_blank_required_field_ignored (w : world) (record_id : Z) (r : record)
    (m : gmap (list N) pyval) :
  outage w = None →
  table w !! record_id = Some r →
  id r = record_id →
  string_fields m = true →
  blank_at k_name m ∨ blank_at k_message m →
  status (serve (PUT_record record_id (PDict m)) w).1 = 200%Z ∧
  ∃ r', table (serve (PUT_record record_id (PDict m)) w).2 !! record_id = Some r' ∧
        field k_record (body (serve (PUT_record record_id (PDict m)) w).1) =
          Some (PDict (list_to_map (to_dict r'))) ∧
        (blank_at k_name m → name r' = name r) ∧
        (blank_at k_message m → message r' = message r) ∧
        updated_at r' = Some (clock w (tick w)).
Proof.
  intros Ho Ht Hid Hf Hb.
  assert (Hm : m ≠ ∅).
  { intros ->. destruct Hb as [(s & Hs & _)|(s & Hs & _)];
      rewrite lookup_empty in Hs; discriminate Hs. }
  unfold serve, route. rewrite (update_record_fields w record_id r m Ho Ht Hm Hf).
  cbv zeta. cbn [fst snd].
  split; [reflexivity|].
  exists (set_updated_at (Some (clock w (tick w))) (apply_fields m r)).
  split; [|split; [|split; [|split]]].
  - cbn [set_table table].
    replace record_id with (id (set_updated_at (Some (clock w (tick w))) (apply_fields m r)))
      by (rewrite <- Hid; apply id_apply_fields).
    apply lookup_insert_eq.
  - reflexivity.
  - intros H. exact (name_apply_fields_blank m r H).
  - intros H. exact (message_apply_fields_blank m r H).
  - reflexivity.
Qed.

Lemma update_blank_required_field_ignored_witness :
  status (serve (PUT_record 1 (PDict {[ k_name := PStr (lit "  ") ]}))
                one_record_world).1 = 200%Z ∧
  ∃ r', table (serve (PUT_record 1 (PDict {[ k_name := PStr (lit "  ") ]}))
                     one_record_world).2 !! 1%Z = Some r' ∧
        field k_record (body (serve (PUT_record 1 (PDict {[ k_name := PStr (lit "  ") ]}))
                                    one_record_world).1) =
          Some (PDict (list_to_map (to_dict r'))) ∧
        (blank_at k_name {[ k_name := PStr (lit "  ") ]} → name r' = name sample_record) ∧
        (blank_at k_message {[ k_name := PStr (lit "  ") ]} →
         message r' = message sample_record) ∧
        updated_at r' = Some (clock one_record_world (tick one_record_world)).
Proof.
  apply (update_blank_required_field_ignored one_record_world 1 sample_record
           {[ k_name := PStr (lit "  ") ]}).
  - vm_compute; reflexivity.
  - vm_compute; reflexivity.
  - reflexivity.
  - vm_compute; reflexivity.
  - left. exists (lit "  "). split; vm_compute; reflexivity.
Defined.

(** C7, as stated, fails on the empty JSON object: it is a mapping, and
    the update of an existing record with it is answered 400. *)
Lemma update_empty_mapping_rejected :
  is_mapping (PDict ∅) = true ∧
  table one_record_world !! 1%Z = Some sample_record ∧
  status (serve (PUT_record 1 (PDict ∅)) one_record_world).1 = 400%Z ∧
  ¬ (status (serve (PUT_record 1 (PDict ∅)) one_record_world).1 = 400%Z ↔
     is_mapping (PDict ∅) = false).
Proof.
  split; [reflexivity|]. split; [vm_compute; reflexivity|].
  split; [vm_compute; reflexivity|].
  intros [H _]. discriminate H. vm_compute; reflexivity.
Qed.

(** A body that is not a mapping can be accepted: a non-empty list that
    does not hold the three keys passes every membership test. *)
Lemma update_list_body_accepted :
  status (serve (PUT_record 1 (PList [PInt 1])) one_record_world).1 = 200%Z.
Proof. vm_compute; reflexivity. Qed.

(** C7, amended. The update of an existing record is answered 400
    exactly when the body is false for Python (null, false, 0, an empty
    string, list or object); every non-empty JSON object whose name,
    message and note are strings is answered 200, also when none of its
    fields changes the record. *)
Theorem update_400_iff_body_falsy (w : world) (record_id : Z) (r : record) (data : pyval) :
  outage w = None →
  table w !! record_id = Some r →
  (status (serve (PUT_record record_id data) w).1 = 400%Z ↔ truthy data = false) ∧
  (∀ m, data = PDict m → m ≠ ∅ → string_fields m = true →
        status (serve (PUT_record record_id data) w).1 = 200%Z).
Proof.
  intros Ho Ht. split.
  - cbv beta iota delta
      [serve route update_record try_except get_or_404 engine gets mbind M_bind mret M_ret].
    rewrite Ho, Ht.
    destruct (truthy data) eqn:E; cbn [negb]; [|split; reflexivity].
    split; [|discriminate]. intros H. exfalso.
    destruct (update_from_dict_outcome r data w) as [[r' Hr]|[e [Hr He]]];
      rewrite Hr in H.
    + cbv beta iota delta [commit_update engine modify mbind M_bind mret M_ret ticked] in H.
      cbn [outage] in H. rewrite Ho in H. discriminate H.
    + destruct e; try discriminate He; discriminate H.
  - intros m -> Hm Hf. unfold serve, route.
    rewrite (update_record_fields w record_id r m Ho Ht Hm Hf). reflexivity.
Qed.

Lemma update_400_iff_body_falsy_witness :
  (status (serve (PUT_record 1 (PDict {[ lit "color" := PStr (lit "red") ]}))
                 one_record_world).1 = 400%Z ↔
   truthy (PDict {[ lit "color" := PStr (lit "red") ]}) = false) ∧
  (∀ m, PDict {[ lit "color" := PStr (lit "red") ]} = PDict m → m ≠ ∅ →
        string_fields m = true →
        status (serve (PUT_record 1 (PDict {[ lit "color" := PStr (lit "red") ]}))
                      one_record_world).1 = 200%Z).
Proof.
  apply (update_400_iff_body_falsy one_record_world 1 sample_record
           (PDict {[ lit "color" := PStr (lit "red") ]}));
    vm_compute; reflexivity.
Defined.

(** ** Create without a note (C6) *)

(** C6, as stated, fails when the clock moves between the two column
    defaults: with one microsecond between the readings the create is
    answered 201 with a null note, and createdAt differs from updatedAt. *)
Lemma create_timestamps_differ :
  status (serve (POST_records (object [("name", PStr (lit "A"));
                                       ("message", PStr (lit "B"))]%string))
                empty_world).1 = 201%Z ∧
  field k_note (body (serve (POST_records (object [("name", PStr (lit "A"));
                                                   ("message", PStr (lit "B"))]%string))
                            empty_world).1) = Some PNone ∧
  field k_createdAt (body (serve (POST_records (object [("name", PStr (lit "A"));
                                                        ("message", PStr (lit "B"))]%string))
                                 empty_world).1) =
    Some (PStr (lit "2024-05-17T08:30:00.000000Z")) ∧
  field k_updatedAt (body (serve (POST_records (object [("name", PStr (lit "A"));
                                                        ("message", PStr (lit "B"))]%string))
                                 empty_world).1) =
    Some (PStr (lit "2024-05-17T08:30:00.000001Z")) ∧
  field k_createdAt (body (serve (POST_records (object [("name", PStr (lit "A"));
                                                        ("message", PStr (lit "B"))]%string))
                                 empty_world).1) ≠
  field k_updatedAt (body (serve (POST_records (object [("name", PStr (lit "A"));
                                                        ("message", PStr (lit "B"))]%string))
                                 empty_world).1).
Proof.
  repeat split; try (vm_compute; reflexivity).
  vm_compute. discriminate.
Qed.

Lemma strip_nonempty (s : str) : strip s ≠ [] → s ≠ [].
Proof. intros H ->. apply H. reflexivity. Qed.

(** C6, amended. A create with valid name and message and no note is
    answered 201 with a null note; createdAt and updatedAt render the two
    successive readings of the UTC clock taken by the two column
    defaults, so they are equal exactly when those readings are. *)
Theorem create_without_note (w : world) (m : gmap (list N) pyval) (n msg : list N) :
  outage w = None →
  m !! k_name = Some (PStr n) → strip n ≠ [] →
  m !! k_message = Some (PStr msg) → strip msg ≠ [] →
  m !! k_note = None →
  status (serve (POST_records (PDict m)) w).1 = 201%Z ∧
  field k_note (body (serve (POST_records (PDict m)) w).1) = Some PNone ∧
  field k_createdAt (body (serve (POST_records (PDict m)) w).1) =
    Some (PStr (strftime_z (clock w (tick w)))) ∧
  field k_updatedAt (body (serve (POST_records (PDict m)) w).1) =
    Some (PStr (strftime_z (clock w (S (tick w))))) ∧
  (in_range (clock w (tick w)) = true → in_range (clock w (S (tick w))) = true →
   (field k_createdAt (body (serve (POST_records (PDict m)) w).1) =
    field k_updatedAt (body (serve (POST_records (PDict m)) w).1) ↔
    clock w (tick w) = clock w (S (tick w)))).
Proof.
  intros Ho Hn Hn' Hm Hm' Hnote.
  assert (Hok : note_ok (m !! k_note) = true) by (rewrite Hnote; reflexivity).
  unfold serve, route.
  rewrite (create_record_accepts m n msg w Ho Hn (strip_nonempty n Hn')
             Hm (strip_nonempty msg Hm') Hok).
  cbv zeta. cbn [fst]. rewrite Hnote.
  unfold jsonify, field, body, status.
  rewrite to_dict_note, to_dict_createdAt, to_dict_updatedAt.
  cbn [note created_at updated_at note_of time_json].
  do 4 (split; [reflexivity|]).
  intros R1 R2. split.
  - intros H.
    assert (E : strftime_z (clock w (tick w)) = strftime_z (clock w (S (tick w))))
      by congruence.
    apply (f_equal parse_z) in E.
    rewrite (parse_z_strftime_z _ R1), (parse_z_strftime_z _ R2) in E. exact E.
  - intros ->. reflexivity.
Qed.

Lemma create_without_note_witness :
  status (serve (POST_records (PDict {[ k_name := PStr (lit "A");
                                        k_message := PStr (lit " B ") ]}))
                empty_world).1 = 201%Z ∧
  field k_note (body (serve (POST_records (PDict {[ k_name := PStr (lit "A");
                                                    k_message := PStr (lit " B ") ]}))
                            empty_world).1) = Some PNone ∧
  field k_createdAt (body (serve (POST_records (PDict {[ k_name := PStr (lit "A");
                                                         k_message := PStr (lit " B ") ]}))
                                 empty_world).1) =
    Some (PStr (strftime_z (clock empty_world (tick empty_world)))) ∧
  field k_updatedAt (body (serve (POST_records (PDict {[ k_name := PStr (lit "A");
                                                         k_message := PStr (lit " B ") ]}))
                                 empty_world).1) =
    Some (PStr (strftime_z (clock empty_world (S (tick empty_world))))) ∧
  (in_range (clock empty_world (tick empty_world)) = true →
   in_range (clock empty_world (S (tick empty_world))) = true →
   (field k_createdAt (body (serve (POST_records (PDict {[ k_name := PStr (lit "A");
                                                           k_message := PStr (lit " B ") ]}))
                                   empty_world).1) =
    field k_updatedAt (body (serve (POST_records (PDict {[ k_name := PStr (lit "A");
                                                           k_message := PStr (lit " B ") ]}))
                                   empty_world).1) ↔
    clock empty_world (tick empty_world) = clock empty_world (S (tick empty_world)))).
Proof.
  apply (create_without_note empty_world
           {[ k_name := PStr (lit "A"); k_message := PStr (lit " B ") ]}
           (lit "A") (lit " B ")).
  - reflexivity.
  - vm_compute; reflexivity.
  - vm_compute; discriminate.
  - vm_compute; reflexivity.
  - vm_compute; discriminate.
  - vm_compute; reflexivity.
Defined.

(** ** Serialized timestamps (C8) *)

Lemma health_check_timestamp (w : world) :
  field k_timestamp (body (serve GET_root w).1) = Some (PStr (isoformat (clock w (tick w)))).
Proof. reflexivity. Qed.

(** C8, as stated, fails on the health endpoint: read at 2024-05-17
    08:30:00 UTC its timestamp is "2024-05-17T08:30:00+00:00", with
    neither a fraction nor a Z, which is not the fixed format. *)
Lemma health_timestamp_not_z_format :
  field k_timestamp (body (serve GET_root empty_world).1) =
    Some (PStr (lit "2024-05-17T08:30:00+00:00")) ∧
  is_z_format (lit "2024-05-17T08:30:00+00:00") = false.
Proof. split; vm_compute; reflexivity. Qed.

(** C8, amended. In record JSON createdAt and updatedAt are written in
    the fixed format YYYY-MM-DDTHH:MM:SS.ffffffZ and read back as the
    datetime they render.  The timestamp of the health endpoint is the
    ISO rendering of the clock reading: it ends with the offset +00:00
    instead of Z, has 25 characters when the microsecond is zero and 32
    otherwise, and is never in the fixed format. *)
Theorem timestamp_renderings (self : record) (c u : datetime) (w : world) :
  created_at self = Some c → updated_at self = Some u →
  in_range c = true → in_range u = true →
  (∃ s, field k_createdAt (PDict (list_to_map (to_dict self))) = Some (PStr s) ∧
        is_z_format s = true ∧ parse_z s = c) ∧
  (∃ s, field k_updatedAt (PDict (list_to_map (to_dict self))) = Some (PStr s) ∧
        is_z_format s = true ∧ parse_z s = u) ∧
  (∃ s, field k_timestamp (body (serve GET_root w).1) = Some (PStr s) ∧
        s = isoformat (clock w (tick w)) ∧
        endswith s (lit "+00:00") = true ∧
        length s = (if (microsecond (clock w (tick w)) =? 0)%N then 25 else 32) ∧
        is_z_format s = false).
Proof.
  intros Hc Hu Rc Ru. split; [|split].
  - exists (strftime_z c). cbn [field]. rewrite to_dict_createdAt, Hc.
    split; [reflexivity|]. split; [apply strftime_z_shape | apply parse_z_strftime_z, Rc].
  - exists (strftime_z u). cbn [field]. rewrite to_dict_updatedAt, Hu.
    split; [reflexivity|]. split; [apply strftime_z_shape | apply parse_z_strftime_z, Ru].
  - exists (isoformat (clock w (tick w))).
    split; [apply health_check_timestamp|]. split; [reflexivity|].
    split; [apply isoformat_offset|]. split; [apply length_isoformat | apply isoformat_not_z].
Qed.

Lemma timestamp_renderings_witness :
  (∃ s, field k_createdAt (PDict (list_to_map (to_dict sample_record))) = Some (PStr s) ∧
        is_z_format s = true ∧ parse_z s = sample_clock 0) ∧
  (∃ s, field k_updatedAt (PDict (list_to_map (to_dict sample_record))) = Some (PStr s) ∧
        is_z_format s = true ∧ parse_z s = sample_clock 1) ∧
  (∃ s, field k_timestamp (body (serve GET_root one_record_world).1) = Some (PStr s) ∧
        s = isoformat (clock one_record_world (tick one_record_world)) ∧
        endswith s (lit "+00:00") = true ∧
        length s = (if (microsecond (clock one_record_world (tick one_record_world)) =? 0)%N
                    then 25 else 32) ∧
        is_z_format s = false).
Proof.
  apply (timestamp_renderings sample_record (sample_clock 0) (sample_clock 1)
           one_record_world); reflexivity.
Defined.


(** * Further properties of the views *)

(** ** Trimming is idempotent *)

Section StripTwice.

Lemma lstrip_snoc (a : list N) (c : N) :
  isspace c = false → lstrip (a ++ [c]) = lstrip a ++ [c].
Proof.
  intros Hc. induction a as [|x a IH]; cbn [app lstrip].
  - rewrite Hc. reflexivity.
  - destruct (isspace x); [exact IH | reflexivity].
Qed.

Lemma rstrip_cons (c : N) (t : list N) :
  isspace c = false → rstrip (c :: t) = c :: rstrip t.
Proof.
  intros Hc. unfold rstrip. cbn [rev]. rewrite (lstrip_snoc _ _ Hc).
  rewrite rev_app_distr. reflexivity.
Qed.

Lemma lstrip_idem (s : list N) : lstrip (lstrip s) = lstrip s.
Proof.
  destruct (lstrip_head s) as [E | (c & t & E & Hc)]; rewrite E; cbn [lstrip].
  - reflexivity.
  - rewrite Hc. reflexivity.
Qed.

Lemma strip_idem (s : list N) : strip (strip s) = strip s.
Proof.
  unfold strip at 2 3.
  destruct (lstrip_head s) as [E | (c & t & E & Hc)]; rewrite E.
  - reflexivity.
  - rewrite (rstrip_cons c t Hc). unfold strip. cbn [lstrip]. rewrite Hc.
    rewrite (rstrip_cons c _ Hc). f_equal.
    unfold rstrip. rewrite rev_involutive, lstrip_idem. reflexivity.
Qed.

End StripTwice.

(** ** Every way [update_from_dict] can end *)

Section UpdateSteps.

Lemma update_required_step k setter data self w o w' :
  update_required k setter data self w = (o, w') →
  w' = w ∧
  match o with
  | Ok self' => self' = self ∨ ∃ s, self' = setter (strip s) self
  | Raise e => python_error e = true
  end.
Proof.
  destruct data as [ | b | n | f | s | l | m ].
  7:{ rewrite update_required_dict.
      destruct (m !! k) as [[ | | | | s | | ]|];
        try destruct (truthy (PStr (strip s)));
        intros [= <- <-]; (split; [reflexivity|]);
        first [reflexivity | left; reflexivity | right; eexists; reflexivity]. }
  all: run.
  1-4: intros [= <- <-]; split; reflexivity.
  - destruct (contains s k); intros [= <- <-]; (split; [reflexivity|]);
      [reflexivity | left; reflexivity].
  - match goal with |- context [existsb ?f ?l] => destruct (existsb f l) end;
      intros [= <- <-]; (split; [reflexivity|]); [reflexivity | left; reflexivity].
Qed.

Lemma update_note_step data self w o w' :
  update_note data self w = (o, w') →
  w' = w ∧
  match o with
  | Ok self' => self' = self ∨ self' = set_note None self ∨
                ∃ s, self' = set_note (Some (strip s)) self
  | Raise e => python_error e = true
  end.
Proof.
  destruct data as [ | b | n | f | s | l | m ].
  7:{ rewrite update_note_dict. destruct (m !! k_note) as [v|].
      - destruct (truthy v); [destruct v|]; intros [= <- <-];
          (split; [reflexivity|]); try reflexivity; eauto.
      - intros [= <- <-]. split; [reflexivity | left; reflexivity]. }
  all: run.
  1-4: intros [= <- <-]; split; reflexivity.
  - destruct (contains s k_note); intros [= <- <-]; (split; [reflexivity|]);
      [reflexivity | left; reflexivity].
  - match goal with |- context [existsb ?f ?l] => destruct (existsb f l) end;
      intros [= <- <-]; (split; [reflexivity|]); [reflexivity | left; reflexivity].
Qed.

Lemma update_from_dict_derived self data w self' w' :
  update_from_dict self data w = (Ok self', w') →
  w' = ticked w ∧ derived w self self'.
Proof.
  unfold update_from_dict. cbv beta iota delta [mbind M_bind].
  destruct (update_required k_name set_name data self w) as [o1 w1] eqn:E1.
  apply update_required_step in E1 as [-> H1].
  destruct o1 as [r1|e1]; [|discriminate].
  destruct (update_required k_message set_message data r1 w) as [o2 w2] eqn:E2.
  apply update_required_step in E2 as [-> H2].
  destruct o2 as [r2|e2]; [|discriminate].
  destruct (update_note data r2 w) as [o3 w3] eqn:E3.
  apply update_note_step in E3 as [-> H3].
  destruct o3 as [r3|e3]; [|discriminate].
  cbv beta iota delta [now mret M_ret]. intros [= <- <-].
  split; [reflexivity|]. unfold derived.
  destruct H1 as [-> | [s1 ->]]; destruct H2 as [-> | [s2 ->]];
    destruct H3 as [-> | [-> | [s3 ->]]]; cbn;
    repeat split; eauto.
Qed.

End UpdateSteps.

(** ** Every way a view can end *)

Section ViewCases.

(** Closes a case in which the view ends early and the world stays. *)
Ltac stays :=
  right; eexists; split;
  [reflexivity | first [reflexivity | left; reflexivity | right; reflexivity]].

Lemma create_record_cases data w :
  (∃ n msg nt,
      (nt = None ∨ ∃ s, nt = Some (strip s)) ∧ outage w = None ∧
      create_record data w =
      (Ok (jsonify (to_dict (created_row w n msg nt)) 201),
       after_insert w (created_row w n msg nt))) ∨
  (∃ o, create_record data w = (o, w) ∧ refused o).
Proof.
  destruct w as [t key clk nr o].
  destruct data as [ | b | z | f | s | l | m ].
  - stays.
  - destruct b; stays.
  - run. cbn [truthy]. destruct (z =? 0)%Z; stays.
  - destruct f; stays.
  - destruct s; stays.
  - destruct l; stays.
  - run. destruct (negb (truthy (PDict m))); [stays|].
    cbv beta iota delta [from_option Datatypes.id].
    destruct (m !! k_name) as [vn|]; [|stays].
    destruct (truthy vn) eqn:En; cbn [negb]; [|stays].
    destruct (m !! k_message) as [vm|]; [|stays].
    destruct (truthy vm) eqn:Em; cbn [negb]; [|stays].
    destruct vn as [ | | | | n | | ]; try stays.
    destruct vm as [ | | | | msg | | ]; try stays.
    destruct (m !! k_note) as [vo|].
    + destruct (truthy vo) eqn:Eo.
      * destruct vo as [ | | | | so | | ]; try stays.
        destruct o as [err|]; [stays|].
        left. exists n, msg, (Some (strip so)). split; [right; eauto|].
        split; reflexivity.
      * destruct o as [err|]; [stays|].
        left. exists n, msg, None. split; [left; reflexivity|]. split; reflexivity.
    + cbn [truthy]. destruct o as [err|]; [stays|].
      left. exists n, msg, None. split; [left; reflexivity|]. split; reflexivity.
Qed.

Lemma update_record_cases record_id data w :
  (∃ r r', outage w = None ∧ table w !! record_id = Some r ∧ truthy data = true ∧
           update_from_dict r data w = (Ok r', ticked w) ∧
           update_record record_id data w =
           (Ok (jsonify [ (k_message, PStr (lit "Record updated successfully"));
                          (k_record, PDict (list_to_map (to_dict r'))) ] 200),
            after_update w r')) ∨
  (∃ o, update_record record_id data w = (o, w) ∧ failed o).
Proof.
  cbv beta iota delta
    [update_record try_except get_or_404 engine gets mbind M_bind mret M_ret raise
     catch_sqlalchemy rollback].
  destruct (outage w) as [err|] eqn:Ho; [stays|].
  destruct (table w !! record_id) as [r|] eqn:Ht; [|stays].
  destruct (truthy data) eqn:Ed; cbn [negb]; [|stays].
  destruct (update_from_dict_outcome r data w) as [[r' Hr]|[e [Hr He]]]; rewrite Hr.
  - left. exists r, r'. repeat (split; [reflexivity || assumption|]).
    cbv beta iota delta [commit_update engine modify mbind M_bind mret M_ret ticked
                         after_update].
    cbn [outage]. rewrite Ho. reflexivity.
  - right. destruct e; try discriminate He;
      (eexists; split; [reflexivity | left; reflexivity]).
Qed.

Lemma delete_record_cases record_id w :
  (∃ r, outage w = None ∧ table w !! record_id = Some r ∧
        delete_record record_id w =
        (Ok (jsonify [ (k_message, PStr (lit "Record deleted successfully")) ] 200),
         set_table (delete (id r) (table w)) w)) ∨
  (∃ o, delete_record record_id w = (o, w) ∧ failed o).
Proof.
  run.
  destruct (outage w) as [err|] eqn:Ho; [stays|].
  destruct (table w !! record_id) as [r|] eqn:Ht; [|stays].
  left. exists r. repeat (split; [reflexivity|]). rewrite Ho. reflexivity.
Qed.

Lemma get_records_world w : (get_records w).2 = w.
Proof. run. destruct (outage w); reflexivity. Qed.

End ViewCases.

Section CreateOutcomes.

(** X3. Whatever the body and the state of the storage engine, a create
    request either is answered 201, returns the JSON of a row whose id
    is the engine's next key and adds exactly that row under that key,
    or is answered 400 or 500 and leaves the table and the key sequence
    as they were. *)
Theorem create_all_or_nothing (w : world) (data : pyval) :
  (status (serve (POST_records data) w).1 = 201%Z ∧
   ∃ r, id r = next_id w ∧
        body (serve (POST_records data) w).1 = PDict (list_to_map (to_dict r)) ∧
        table (serve (POST_records data) w).2 = <[next_id w := r]> (table w) ∧
        next_id (serve (POST_records data) w).2 = (next_id w + 1)%Z) ∨
  ((status (serve (POST_records data) w).1 = 400%Z ∨
    status (serve (POST_records data) w).1 = 500%Z) ∧
   table (serve (POST_records data) w).2 = table w ∧
   next_id (serve (POST_records data) w).2 = next_id w).
Proof.
  unfold serve, route.
  destruct (create_record_cases data w) as [(n & msg & nt & _ & _ & ->)|(o & -> & Hf)].
  - left. split; [reflexivity|]. eexists. repeat split; reflexivity.
  - right. destruct o as [resp|e]; cbn [refused] in Hf.
    + split; [exact Hf | split; reflexivity].
    + destruct e; try discriminate Hf;
        (split; [right; reflexivity | split; reflexivity]).
Qed.

End CreateOutcomes.

Section UpdateDeleteOutcomes.

(** X8. Whatever the id, the body and the state of the storage engine,
    an update request either is answered 200, in which case the row
    found under the id is replaced, under its own id, by a record that
    keeps its id and created_at, has each of name and message either
    kept or set to a trimmed string, has its note kept, cleared or set
    to a trimmed string, and has updated_at set to the clock reading;
    or it is answered 400, 404 or 500 and leaves the table and the key
    sequence as they were. *)
Theorem update_all_or_one_row (w : world) (record_id : Z) (data : pyval) :
  (status (serve (PUT_record record_id data) w).1 = 200%Z ∧
   ∃ r r', table w !! record_id = Some r ∧ derived w r r' ∧
           field k_record (body (serve (PUT_record record_id data) w).1) =
             Some (PDict (list_to_map (to_dict r'))) ∧
           table (serve (PUT_record record_id data) w).2 = <[id r := r']> (table w) ∧
           next_id (serve (PUT_record record_id data) w).2 = next_id w) ∨
  ((status (serve (PUT_record record_id data) w).1 = 400%Z ∨
    status (serve (PUT_record record_id data) w).1 = 404%Z ∨
    status (serve (PUT_record record_id data) w).1 = 500%Z) ∧
   table (serve (PUT_record record_id data) w).2 = table w ∧
   next_id (serve (PUT_record record_id data) w).2 = next_id w).
Proof.
  unfold serve, route.
  destruct (update_record_cases record_id data w)
    as [(r & r' & Ho & Ht & Hd & Hu & ->)|(o & -> & Hf)].
  - left. split; [reflexivity|]. exists r, r'.
    apply update_from_dict_derived in Hu as [_ Hder].
    split; [exact Ht|]. split; [exact Hder|]. split; [reflexivity|].
    destruct Hder as [Hid _]. cbn [snd after_update set_table table next_id ticked].
    rewrite Hid. split; reflexivity.
  - right. destruct o as [resp|e]; cbn [failed] in Hf.
    + split; [|split; reflexivity].
      destruct Hf as [Hf|Hf]; [left|right; right]; exact Hf.
    + destruct Hf as [Hf| ->].
      * destruct e; try discriminate Hf;
          (split; [right; right; reflexivity | split; reflexivity]).
      * split; [right; left; reflexivity | split; reflexivity].
Qed.

(** X9. Deleting an existing record is answered 200 and removes its row
    and no other; a second delete and an update of the same id are then
    answered 404. *)
Theorem delete_then_gone (w : world) (record_id : Z) (r : record) (data : pyval) :
  outage w = None →
  table w !! record_id = Some r →
  id r = record_id →
  status (serve (DELETE_record record_id) w).1 = 200%Z ∧
  table (serve (DELETE_record record_id) w).2 = delete record_id (table w) ∧
  (∀ j, j ≠ record_id →
        table (serve (DELETE_record record_id) w).2 !! j = table w !! j) ∧
  status (serve (DELETE_record record_id) (serve (DELETE_record record_id) w).2).1 = 404%Z ∧
  status (serve (PUT_record record_id data) (serve (DELETE_record record_id) w).2).1 = 404%Z.
Proof.
  intros Ho Ht Hid.
  assert (E : serve (DELETE_record record_id) w =
              (jsonify [ (k_message, PStr (lit "Record deleted successfully")) ] 200,
               set_table (delete record_id (table w)) w)).
  { unfold serve, route.
    cbv beta iota delta
      [delete_record try_except get_or_404 engine gets mbind M_bind mret M_ret
       delete_commit modify].
    rewrite Ho, Ht. cbv beta iota. rewrite Ho, Hid. reflexivity. }
  rewrite E. cbn [fst snd].
  split; [reflexivity|]. split; [reflexivity|]. split.
  - intros j Hj. cbn [set_table table]. apply lookup_delete_ne. congruence.
  - assert (Hgone : table (set_table (delete record_id (table w)) w) !! record_id = None)
      by apply lookup_delete_eq.
    split.
    + cbv beta iota delta
        [serve route delete_record try_except get_or_404 engine gets mbind M_bind
         mret M_ret raise catch_sqlalchemy].
      cbn [outage set_table]. rewrite Ho. cbn [table set_table] in Hgone |- *.
      rewrite Hgone. reflexivity.
    + cbv beta iota delta
        [serve route update_record try_except get_or_404 engine gets mbind M_bind
         mret M_ret raise catch_sqlalchemy].
      cbn [outage set_table]. rewrite Ho. cbn [table set_table] in Hgone |- *.
      rewrite Hgone. reflexivity.
Qed.

Lemma delete_then_gone_witness :
  status (serve (DELETE_record 1) one_record_world).1 = 200%Z ∧
  table (serve (DELETE_record 1) one_record_world).2 = delete 1%Z (table one_record_world) ∧
  (∀ j, j ≠ 1%Z →
        table (serve (DELETE_record 1) one_record_world).2 !! j =
        table one_record_world !! j) ∧
  status (serve (DELETE_record 1) (serve (DELETE_record 1) one_record_world).2).1 = 404%Z ∧
  status (serve (PUT_record 1 (PDict {[ k_name := PStr (lit "Z") ]}))
                (serve (DELETE_record 1) one_record_world).2).1 = 404%Z.
Proof.
  apply (delete_then_gone one_record_world 1 sample_record
           (PDict {[ k_name := PStr (lit "Z") ]})); vm_compute; reflexivity.
Defined.

End UpdateDeleteOutcomes.

Section Invariant.

Lemma created_row_ok w n msg nt :
  (nt = None ∨ ∃ s, nt = Some (strip s)) → row_ok (next_id w) (created_row w n msg nt).
Proof.
  intros Hnt. unfold row_ok, created_row, trimmed. cbn.
  split; [reflexivity|]. split; [apply strip_idem|]. split; [apply strip_idem|].
  split; [|split; eauto].
  intros s Hs. destruct Hnt as [-> | [s' ->]]; [discriminate Hs|].
  injection Hs as <-. apply strip_idem.
Qed.

Lemma derived_row_ok w i r r' : row_ok i r → derived w r r' → row_ok i r'.
Proof.
  unfold row_ok, derived, trimmed.
  intros (Hid & Hn & Hm & Hnote & Hc & Hu) (Did & Dc & Dn & Dm & Dnote & Du).
  split; [congruence|]. split; [|split; [|split; [|split]]].
  - destruct Dn as [-> | [s ->]]; [exact Hn | apply strip_idem].
  - destruct Dm as [-> | [s ->]]; [exact Hm | apply strip_idem].
  - intros s Hs. destruct Dnote as [E | [E | [s' E]]]; rewrite E in Hs.
    + apply Hnote, Hs.
    + discriminate Hs.
    + injection Hs as <-. apply strip_idem.
  - rewrite Dc. exact Hc.
  - rewrite Du. eauto.
Qed.

Lemma serve_rows_ok (rq : request) (w : world) :
  map_Forall row_ok (table w) → map_Forall row_ok (table (serve rq w).2).
Proof.
  intros Hw. destruct rq as [ | data | | record_id data | record_id | ];
    unfold serve, route.
  - pose proof (get_records_world w) as E.
    destruct (get_records w) as [[resp|e] w']; cbn [snd] in E; subst w';
      [exact Hw | destruct e; exact Hw].
  - destruct (create_record_cases data w) as [(n & msg & nt & Hnt & _ & ->)|(o & -> & _)].
    + cbn [snd after_insert table]. apply map_Forall_insert_2; [|exact Hw].
      apply created_row_ok, Hnt.
    + destruct o as [resp|e]; [exact Hw | destruct e; exact Hw].
  - exact Hw.
  - destruct (update_record_cases record_id data w)
      as [(r & r' & _ & Ht & _ & Hu & ->)|(o & -> & _)].
    + apply update_from_dict_derived in Hu as [_ Hder].
      cbn [snd after_update set_table table].
      pose proof (derived_row_ok w record_id r r' (Hw _ _ Ht) Hder) as Hok.
      destruct Hok as [Hid Hrest]. rewrite Hid.
      apply map_Forall_insert_2; [|exact Hw]. split; assumption.
    + destruct o as [resp|e]; [exact Hw | destruct e; exact Hw].
  - destruct (delete_record_cases record_id w) as [(r & _ & Ht & ->)|(o & -> & _)].
    + cbn [snd set_table table]. apply map_Forall_delete, Hw.
    + destruct o as [resp|e]; [exact Hw | destruct e; exact Hw].
  - exact Hw.
Qed.

(** X12. After any sequence of requests served from the empty table,
    whatever the clock and the state of the storage engine, every row
    of the table is stored under its own id, its name, its message and
    its note (when it has one) carry no whitespace at either end, and
    both of its timestamps are set. *)
Theorem rows_stay_well_formed (clk : nat → datetime) (o : option (list N))
    (rqs : list request) :
  map_Forall row_ok (table (serve_all rqs (initial clk o))).
Proof.
  unfold serve_all.
  assert (H0 : map_Forall row_ok (table (initial clk o))) by apply map_Forall_empty.
  revert H0. generalize (initial clk o) as w.
  induction rqs as [|rq rqs IH]; intros w Hw; cbn [fold_left]; [exact Hw|].
  apply IH, serve_rows_ok, Hw.
Qed.

End Invariant.

Section Outage.

(** X10. While the storage engine fails with message msg: the listing
    and an acceptable create are answered 500 with that message as
    error; an update and a delete are answered 500 with the message
    prefixed by "Failed to update record: " and "Failed to delete
    record: ", whatever the id and the body; none of them changes the
    table; the health endpoint still answers 200. *)
Theorem storage_outage_answers_500 (w : world) (msg : list N) (record_id : Z)
    (data : pyval) (m : gmap (list N) pyval) :
  outage w = Some msg →
  creatable m = true →
  serve GET_records w = (error_body msg 500, w) ∧
  ((serve (POST_records (PDict m)) w).1 = error_body msg 500 ∧
   table (serve (POST_records (PDict m)) w).2 = table w) ∧
  serve (PUT_record record_id data) w =
    (error_body (lit "Failed to update record: " ++ msg) 500, w) ∧
  serve (DELETE_record record_id) w =
    (error_body (lit "Failed to delete record: " ++ msg) 500, w) ∧
  status (serve GET_root w).1 = 200%Z ∧
  table (serve GET_root w).2 = table w.
Proof.
  intros Ho Hc.
  split; [run; rewrite Ho; reflexivity|].
  split; [|split; [run; rewrite Ho; reflexivity|
           split; [run; rewrite Ho; reflexivity|split; reflexivity]]].
  assert (E : serve (POST_records (PDict m)) w = (error_body msg 500, w));
    [|rewrite E; split; reflexivity].
  unfold creatable in Hc.
  destruct (m !! k_name) as [[ | | | | [|c n] | | ]|] eqn:Hn; try discriminate Hc.
  destruct (m !! k_message) as [[ | | | | [|c' msg'] | | ]|] eqn:Hm; try discriminate Hc.
  destruct w as [t key clk nr o]. cbn [outage] in Ho. subst o. run.
  rewrite (nonempty_of_lookup m k_name _ Hn). cbn [negb].
  rewrite Hn, Hm. cbv beta iota delta [from_option Datatypes.id]. cbn [truthy negb].
  destruct (m !! k_note) as [v|]; [|reflexivity].
  destruct v as [ | b | z | f | s | l | m' ]; cbn [note_ok] in Hc;
    try (apply negb_true_iff in Hc; rewrite Hc; reflexivity).
  destruct s; reflexivity.
Qed.

Lemma storage_outage_answers_500_witness :
  serve GET_records (outage_world (lit "db is down")) =
    (error_body (lit "db is down") 500, outage_world (lit "db is down")) ∧
  ((serve (POST_records (PDict {[ k_name := PStr (lit "A"); k_message := PStr (lit "B") ]}))
          (outage_world (lit "db is down"))).1 = error_body (lit "db is down") 500 ∧
   table (serve (POST_records (PDict {[ k_name := PStr (lit "A");
                                        k_message := PStr (lit "B") ]}))
                (outage_world (lit "db is down"))).2 =
     table (outage_world (lit "db is down"))) ∧
  serve (PUT_record 1 PNone) (outage_world (lit "db is down")) =
    (error_body (lit "Failed to update record: " ++ lit "db is down") 500,
     outage_world (lit "db is down")) ∧
  serve (DELETE_record 1) (outage_world (lit "db is down")) =
    (error_body (lit "Failed to delete record: " ++ lit "db is down") 500,
     outage_world (lit "db is down")) ∧
  status (serve GET_root (outage_world (lit "db is down"))).1 = 200%Z ∧
  table (serve GET_root (outage_world (lit "db is down"))).2 =
    table (outage_world (lit "db is down")).
Proof.
  apply (storage_outage_answers_500 (outage_world (lit "db is down")) (lit "db is down")
           1 PNone {[ k_name := PStr (lit "A"); k_message := PStr (lit "B") ]});
    vm_compute; reflexivity.
Defined.

(** X2. A create request whose body is false for Python (null, an empty
    object, ...) or is an object whose name or message is missing, null
    or the empty string is answered 400 with the error "Name and message
    are required" and leaves the world as it was, also while the storage
    engine is failing. *)
Theorem create_validates_before_storage (w : world) (data : pyval) :
  truthy data = false ∨
  (∃ m, data = PDict m ∧
        (truthy (default PNone (m !! k_name)) = false ∨
         truthy (default PNone (m !! k_message)) = false)) →
  serve (POST_records data) w =
    (error_body (lit "Name and message are required") 400, w).
Proof.
  intros [H | (m & -> & H)]; unfold serve, route.
  - cbv beta iota delta [create_record create_rejects mbind M_bind mret M_ret].
    rewrite H. reflexivity.
  - rewrite (create_record_rejects m w H). reflexivity.
Qed.

Lemma create_validates_before_storage_witness :
  serve (POST_records (PDict {[ k_name := PStr (lit "A"); k_message := PStr [] ]}))
        (outage_world (lit "db is down")) =
    (error_body (lit "Name and message are required") 400,
     outage_world (lit "db is down")).
Proof.
  apply (create_validates_before_storage (outage_world (lit "db is down"))
           (PDict {[ k_name := PStr (lit "A"); k_message := PStr [] ]})).
  right. eexists. split; [reflexivity|]. right. vm_compute. reflexivity.
Defined.

End Outage.

Section Listing.

Lemma get_records_healthy (w : world) :
  outage w = None →
  serve GET_records w =
  (jsonify [ (k_records, PList ((fun r => PDict (list_to_map (to_dict r))) <$>
                                (snd <$> map_to_list (table w))));
             (k_total, PInt (Z.of_nat (length (snd <$> map_to_list (table w))))) ] 200,
   w).
Proof. intros Ho. run. rewrite Ho. reflexivity. Qed.

Lemma listed_healthy (w : world) :
  outage w = None →
  listed (serve GET_records w).1 =
  (fun r => PDict (list_to_map (to_dict r))) <$> (snd <$> map_to_list (table w)).
Proof. intros Ho. rewrite (get_records_healthy w Ho). reflexivity. Qed.

Lemma total_healthy (w : world) :
  outage w = None →
  field k_total (body (serve GET_records w).1) = Some (PInt (Z.of_nat (size (table w)))).
Proof.
  intros Ho. rewrite (get_records_healthy w Ho).
  rewrite length_fmap, length_map_to_list. reflexivity.
Qed.

Lemma elem_of_listed (w : world) (v : pyval) :
  outage w = None →
  v ∈ listed (serve GET_records w).1 ↔
  ∃ i r, table w !! i = Some r ∧ v = PDict (list_to_map (to_dict r)).
Proof.
  intros Ho. rewrite (listed_healthy w Ho), list_elem_of_fmap. split.
  - intros (r & -> & Hr). apply list_elem_of_fmap in Hr as ([i r'] & -> & Hir).
    apply elem_of_map_to_list in Hir. exists i, r'. split; [exact Hir | reflexivity].
  - intros (i & r & Hir & ->). exists r. split; [reflexivity|].
    apply list_elem_of_fmap. exists (i, r). split; [reflexivity|].
    apply elem_of_map_to_list, Hir.
Qed.

(** X5. With the storage engine healthy the listing is answered 200 and
    changes nothing; its total is the number of rows of the table, its
    records list has that length, and its elements are exactly the JSON
    objects of the rows. *)
Theorem get_records_lists_every_row (w : world) :
  outage w = None →
  status (serve GET_records w).1 = 200%Z ∧
  (serve GET_records w).2 = w ∧
  field k_total (body (serve GET_records w).1) = Some (PInt (Z.of_nat (size (table w)))) ∧
  length (listed (serve GET_records w).1) = size (table w) ∧
  (∀ v, v ∈ listed (serve GET_records w).1 ↔
        ∃ i r, table w !! i = Some r ∧ v = PDict (list_to_map (to_dict r))).
Proof.
  intros Ho. split; [rewrite (get_records_healthy w Ho); reflexivity|].
  split; [rewrite (get_records_healthy w Ho); reflexivity|].
  split; [apply total_healthy, Ho|].
  split.
  - rewrite (listed_healthy w Ho), !length_fmap. apply length_map_to_list.
  - intros v. apply elem_of_listed, Ho.
Qed.

Lemma get_records_lists_every_row_witness :
  status (serve GET_records one_record_world).1 = 200%Z ∧
  (serve GET_records one_record_world).2 = one_record_world ∧
  field k_total (body (serve GET_records one_record_world).1) =
    Some (PInt (Z.of_nat (size (table one_record_world)))) ∧
  length (listed (serve GET_records one_record_world).1) = size (table one_record_world) ∧
  (∀ v, v ∈ listed (serve GET_records one_record_world).1 ↔
        ∃ i r, table one_record_world !! i = Some r ∧ v = PDict (list_to_map (to_dict r))).
Proof. apply (get_records_lists_every_row one_record_world). reflexivity. Defined.

End Listing.

Section CreateThenList.

Lemma creatable_fields (m : gmap (list N) pyval) :
  creatable m = true →
  ∃ n msg, m !! k_name = Some (PStr n) ∧ n ≠ [] ∧
           m !! k_message = Some (PStr msg) ∧ msg ≠ [] ∧
           note_ok (m !! k_note) = true.
Proof.
  unfold creatable. intros H.
  destruct (m !! k_name) as [[ | | | | [|c n] | | ]|]; try discriminate H.
  destruct (m !! k_message) as [[ | | | | [|c' msg] | | ]|]; try discriminate H.
  exists (c :: n), (c' :: msg). repeat split; try discriminate; exact H.
Qed.

Lemma serve_create_accepts (w : world) (m : gmap (list N) pyval) (n msg : list N) :
  outage w = None →
  m !! k_name = Some (PStr n) → n ≠ [] →
  m !! k_message = Some (PStr msg) → msg ≠ [] →
  note_ok (m !! k_note) = true →
  serve (POST_records (PDict m)) w =
  (jsonify (to_dict (created_row w n msg (note_of (m !! k_note)))) 201,
   after_insert w (created_row w n msg (note_of (m !! k_note)))).
Proof.
  intros Ho Hn Hn' Hm Hm' Hnote. unfold serve, route.
  rewrite (create_record_accepts m n msg w Ho Hn Hn' Hm Hm' Hnote). reflexivity.
Qed.

(** X4. With the storage engine healthy and the engine's next key
    unused, an acceptable create followed by the listing gives 201 then
    200; the total is one more than the number of rows before, the JSON
    object returned by the create is in the list, and so is everything
    that was listed before. *)
Theorem create_then_list (w : world) (m : gmap (list N) pyval) :
  outage w = None →
  table w !! next_id w = None →
  creatable m = true →
  status (serve (POST_records (PDict m)) w).1 = 201%Z ∧
  status (serve GET_records (serve (POST_records (PDict m)) w).2).1 = 200%Z ∧
  field k_total (body (serve GET_records (serve (POST_records (PDict m)) w).2).1) =
    Some (PInt (Z.of_nat (S (size (table w))))) ∧
  body (serve (POST_records (PDict m)) w).1 ∈
    listed (serve GET_records (serve (POST_records (PDict m)) w).2).1 ∧
  (∀ v, v ∈ listed (serve GET_records w).1 →
        v ∈ listed (serve GET_records (serve (POST_records (PDict m)) w).2).1).
Proof.
  intros Ho Hfresh Hc.
  destruct (creatable_fields m Hc) as (n & msg & Hn & Hn' & Hm & Hm' & Hnote).
  rewrite (serve_create_accepts w m n msg Ho Hn Hn' Hm Hm' Hnote).
  cbn [fst snd].
  set (r := created_row w n msg (note_of (m !! k_note))).
  assert (Ho' : outage (after_insert w r) = None) by exact Ho.
  split; [reflexivity|].
  split; [rewrite (get_records_healthy _ Ho'); reflexivity|].
  split.
  - rewrite (total_healthy _ Ho'). cbn [after_insert table].
    rewrite (map_size_insert_None _ _ _ Hfresh). reflexivity.
  - split.
    + apply (elem_of_listed _ _ Ho'). exists (next_id w), r. split; [|reflexivity].
      cbn [after_insert table]. apply lookup_insert_eq.
    + intros v Hv.
      apply (elem_of_listed _ _ Ho) in Hv as (i & r0 & Hi & ->).
      apply (elem_of_listed _ _ Ho'). exists i, r0. split; [|reflexivity].
      cbn [after_insert table]. rewrite lookup_insert_ne; [exact Hi|].
      intros <-. rewrite Hfresh in Hi. discriminate Hi.
Qed.

Lemma create_then_list_witness :
  status (serve (POST_records (PDict {[ k_name := PStr (lit "C");
                                        k_message := PStr (lit "D") ]}))
                one_record_world).1 = 201%Z ∧
  status (serve GET_records
            (serve (POST_records (PDict {[ k_name := PStr (lit "C");
                                           k_message := PStr (lit "D") ]}))
                   one_record_world).2).1 = 200%Z ∧
  field k_total
    (body (serve GET_records
             (serve (POST_records (PDict {[ k_name := PStr (lit "C");
                                            k_message := PStr (lit "D") ]}))
                    one_record_world).2).1) =
    Some (PInt (Z.of_nat (S (size (table one_record_world))))) ∧
  body (serve (POST_records (PDict {[ k_name := PStr (lit "C");
                                      k_message := PStr (lit "D") ]}))
              one_record_world).1 ∈
    listed (serve GET_records
              (serve (POST_records (PDict {[ k_name := PStr (lit "C");
                                             k_message := PStr (lit "D") ]}))
                     one_record_world).2).1 ∧
  (∀ v, v ∈ listed (serve GET_records one_record_world).1 →
        v ∈ listed (serve GET_records
                      (serve (POST_records (PDict {[ k_name := PStr (lit "C");
                                                     k_message := PStr (lit "D") ]}))
                             one_record_world).2).1).
Proof.
  apply (create_then_list one_record_world
           {[ k_name := PStr (lit "C"); k_message := PStr (lit "D") ]});
    vm_compute; reflexivity.
Defined.

End CreateThenList.

Section CreateAcceptance.

Ltac ends_early :=
  eexists; split;
  [reflexivity | first [reflexivity | left; reflexivity | right; reflexivity]].

Lemma create_record_not_creatable (m : gmap (list N) pyval) (w : world) :
  creatable m = false →
  ∃ o, create_record (PDict m) w = (o, w) ∧ refused o.
Proof.
  unfold creatable. intros H. run.
  destruct (negb (truthy (PDict m))); [ends_early|].
  cbv beta iota delta [from_option Datatypes.id].
  destruct (m !! k_name) as [vn|]; [|ends_early].
  destruct (truthy vn) eqn:En; cbn [negb]; [|ends_early].
  destruct (m !! k_message) as [vm|]; [|ends_early].
  destruct (truthy vm) eqn:Em; cbn [negb]; [|ends_early].
  destruct vn as [ | | | | [|c n] | | ]; try ends_early; [discriminate En|].
  destruct vm as [ | | | | [|c' msg] | | ]; try ends_early; [discriminate Em|].
  destruct (m !! k_note) as [vo|]; [|discriminate H].
  destruct vo as [ | b | z | f | s | l | m' ]; cbn [note_ok] in H;
    try discriminate H; apply negb_false_iff in H; rewrite H; ends_early.
Qed.

Lemma create_record_not_mapping (data : pyval) (w : world) :
  is_mapping data = false →
  ∃ o, create_record data w = (o, w) ∧ refused o.
Proof.
  destruct data as [ | b | z | f | s | l | m ]; intros H; try discriminate H.
  - ends_early.
  - destruct b; ends_early.
  - run. cbn [truthy]. destruct (z =? 0)%Z; ends_early.
  - destruct f; ends_early.
  - destruct s; ends_early.
  - destruct l; ends_early.
Qed.

Lemma refused_not_201 (o : outcome response) (w : world) :
  refused o →
  status (match o with
          | Ok r => (r, w)
          | Raise NotFound => (not_found, w)
          | Raise _ => (internal_error, w)
          end).1 ≠ 201%Z.
Proof.
  destruct o as [resp|e]; cbn [refused fst].
  - intros [H|H]; rewrite H; discriminate.
  - destruct e; discriminate.
Qed.

(** X1. With the storage engine healthy a create request is answered
    201 exactly when its body is a JSON object whose name and message
    are non-empty strings and whose note is absent, a string, or false
    for Python. *)
Theorem create_201_iff_creatable (w : world) (data : pyval) :
  outage w = None →
  (status (serve (POST_records data) w).1 = 201%Z ↔
   ∃ m, data = PDict m ∧ creatable m = true).
Proof.
  intros Ho. split.
  - intros H. destruct (is_mapping data) eqn:Em.
    + destruct data as [ | | | | | | m]; try discriminate Em.
      exists m. split; [reflexivity|].
      destruct (creatable m) eqn:Ec; [reflexivity|]. exfalso.
      destruct (create_record_not_creatable m w Ec) as (o & Ho' & Hr).
      unfold serve, route in H. rewrite Ho' in H.
      exact (refused_not_201 o w Hr H).
    + exfalso. destruct (create_record_not_mapping data w Em) as (o & Ho' & Hr).
      unfold serve, route in H. rewrite Ho' in H.
      exact (refused_not_201 o w Hr H).
  - intros (m & -> & Hc).
    destruct (creatable_fields m Hc) as (n & msg & Hn & Hn' & Hm & Hm' & Hnote).
    rewrite (serve_create_accepts w m n msg Ho Hn Hn' Hm Hm' Hnote). reflexivity.
Qed.

Lemma create_201_iff_creatable_witness :
  status (serve (POST_records (PDict {[ k_name := PStr (lit "C"); k_message := PInt 5 ]}))
                one_record_world).1 = 201%Z ↔
  ∃ m, PDict {[ k_name := PStr (lit "C"); k_message := PInt 5 ]} = PDict m ∧
       creatable m = true.
Proof.
  apply (create_201_iff_creatable one_record_world
           (PDict {[ k_name := PStr (lit "C"); k_message := PInt 5 ]})).
  reflexivity.
Defined.

End CreateAcceptance.

Section UpdateAcceptance.

Lemma update_from_dict_ill_typed (self : record) (m : gmap (list N) pyval) (w : world) :
  string_fields m = false →
  update_from_dict self (PDict m) w = (Raise AttributeError, w).
Proof.
  unfold string_fields. intros H.
  unfold update_from_dict. cbv beta iota delta [mbind M_bind].
  rewrite update_required_dict.
  destruct (m !! k_name) as [[ | | | | sn | | ]|]; try reflexivity;
    rewrite update_required_dict;
    (destruct (m !! k_message) as [[ | | | | sm | | ]|]; try reflexivity);
    rewrite update_note_dict;
    (destruct (m !! k_note) as [vn|]; [|discriminate H]);
    (destruct vn as [ | b | n | f | s | l | m' ]; cbn in H; try discriminate H;
     apply negb_false_iff in H; cbn [truthy]; rewrite H; reflexivity).
Qed.

(** X6. With the storage engine healthy, an update of an existing record
    with a non-empty JSON object is answered 200 exactly when name and
    message, where present, are strings and note, where present, is a
    string or false for Python; otherwise the AttributeError reaches the
    500 handler ("Internal server error") and the world is unchanged. *)
Theorem update_object_200_iff_string_fields (w : world) (record_id : Z) (r : record)
    (m : gmap (list N) pyval) :
  outage w = None →
  table w !! record_id = Some r →
  m ≠ ∅ →
  (status (serve (PUT_record record_id (PDict m)) w).1 = 200%Z ↔ string_fields m = true) ∧
  (string_fields m = false →
   serve (PUT_record record_id (PDict m)) w = (internal_error, w)).
Proof.
  intros Ho Ht Hm.
  assert (Hbad : string_fields m = false →
                 serve (PUT_record record_id (PDict m)) w = (internal_error, w)).
  { intros Hf. unfold serve, route.
    cbv beta iota delta
      [update_record try_except get_or_404 engine gets mbind M_bind mret M_ret].
    rewrite Ho, Ht. cbn [truthy]. rewrite bool_decide_false by exact Hm. cbn [negb].
    rewrite (update_from_dict_ill_typed r m w Hf). reflexivity. }
  split; [|exact Hbad]. split.
  - intros H. destruct (string_fields m) eqn:Hf; [reflexivity|].
    rewrite (Hbad eq_refl) in H. discriminate H.
  - intros Hf. unfold serve, route.
    rewrite (update_record_fields w record_id r m Ho Ht Hm Hf). reflexivity.
Qed.

Lemma update_object_200_iff_string_fields_witness :
  (status (serve (PUT_record 1 (PDict {[ k_name := PInt 5 ]})) one_record_world).1 = 200%Z ↔
   string_fields {[ k_name := PInt 5 ]} = true) ∧
  (string_fields {[ k_name := PInt 5 ]} = false →
   serve (PUT_record 1 (PDict {[ k_name := PInt 5 ]})) one_record_world =
     (internal_error, one_record_world)).
Proof.
  apply (update_object_200_iff_string_fields one_record_world 1 sample_record
           {[ k_name := PInt 5 ]}).
  - reflexivity.
  - vm_compute; reflexivity.
  - intros H. apply (f_equal (fun x : gmap (list N) pyval => x !! k_name)) in H.
    vm_compute in H. discriminate H.
Defined.

(** Splits on every lookup and test left in a goal about [apply_fields]. *)
Ltac split_fields :=
  cbv zeta;
  repeat match goal with
         | |- context [match ?m !! ?k with _ => _ end] =>
             destruct (m !! k) as [[ | | | | ? | | ]|]
         | |- context [if ?c then _ else _] => destruct c
         end;
  reflexivity.

Lemma created_at_apply_fields m r : created_at (apply_fields m r) = created_at r.
Proof. unfold apply_fields. split_fields. Qed.

Lemma name_apply_fields_none m r : m !! k_name = None → name (apply_fields m r) = name r.
Proof. intros H. unfold apply_fields. rewrite H. split_fields. Qed.

Lemma name_apply_fields_set m r s :
  m !! k_name = Some (PStr s) → strip s ≠ [] → name (apply_fields m r) = strip s.
Proof.
  intros H Hs. apply truthy_str in Hs. unfold apply_fields. rewrite H, Hs. split_fields.
Qed.

Lemma message_apply_fields_none m r :
  m !! k_message = None → message (apply_fields m r) = message r.
Proof. intros H. unfold apply_fields. rewrite H. split_fields. Qed.

Lemma message_apply_fields_set m r s :
  m !! k_message = Some (PStr s) → strip s ≠ [] → message (apply_fields m r) = strip s.
Proof.
  intros H Hs. apply truthy_str in Hs. unfold apply_fields. rewrite H, Hs. split_fields.
Qed.

Lemma note_apply_fields_none m r : m !! k_note = None → note (apply_fields m r) = note r.
Proof. intros H. unfold apply_fields. rewrite H. split_fields. Qed.

Lemma note_apply_fields_falsy m r v :
  m !! k_note = Some v → truthy v = false → note (apply_fields m r) = None.
Proof.
  intros H Hv. unfold apply_fields. rewrite H. unfold note_of.
  destruct v; try rewrite Hv; split_fields.
Qed.

Lemma note_apply_fields_set m r s :
  m !! k_note = Some (PStr s) → s ≠ [] → note (apply_fields m r) = Some (strip s).
Proof.
  intros H Hs. apply truthy_str in Hs. unfold apply_fields. rewrite H. unfold note_of.
  rewrite Hs. split_fields.
Qed.

(** X7. With the storage engine healthy, after the update of an existing
    record with a non-empty JSON object of string fields the row keeps
    its id and created_at and has updated_at set to the clock reading;
    name and message are kept when their key is absent and replaced by
    the trimmed value when it is a string that is not empty after
    trimming; note is kept when its key is absent, cleared when its
    value is false for Python, and replaced by the trimmed value when it
    is a string that is not empty after trimming. *)
Theorem update_stores_trimmed_fields (w : world) (record_id : Z) (r : record)
    (m : gmap (list N) pyval) :
  outage w = None →
  table w !! record_id = Some r →
  id r = record_id →
  m ≠ ∅ →
  string_fields m = true →
  ∃ r', table (serve (PUT_record record_id (PDict m)) w).2 !! record_id = Some r' ∧
        id r' = record_id ∧ created_at r' = created_at r ∧
        updated_at r' = Some (clock w (tick w)) ∧
        (m !! k_name = None → name r' = name r) ∧
        (∀ s, m !! k_name = Some (PStr s) → strip s ≠ [] → name r' = strip s) ∧
        (m !! k_message = None → message r' = message r) ∧
        (∀ s, m !! k_message = Some (PStr s) → strip s ≠ [] → message r' = strip s) ∧
        (m !! k_note = None → note r' = note r) ∧
        (∀ v, m !! k_note = Some v → truthy v = false → note r' = None) ∧
        (∀ s, m !! k_note = Some (PStr s) → strip s ≠ [] → note r' = Some (strip s)).
Proof.
  intros Ho Ht Hid Hm Hf. unfold serve, route.
  rewrite (update_record_fields w record_id r m Ho Ht Hm Hf). cbv zeta. cbn [snd].
  exists (set_updated_at (Some (clock w (tick w))) (apply_fields m r)).
  assert (Hid' : id (set_updated_at (Some (clock w (tick w))) (apply_fields m r)) = record_id)
    by (rewrite <- Hid; apply id_apply_fields).
  split; [cbn [set_table table]; rewrite Hid'; apply lookup_insert_eq|].
  split; [exact Hid'|]. clear Hid'.
  split; [apply created_at_apply_fields|]. split; [reflexivity|].
  split; [apply name_apply_fields_none|]. split; [apply name_apply_fields_set|].
  split; [apply message_apply_fields_none|]. split; [apply message_apply_fields_set|].
  split; [apply note_apply_fields_none|]. split; [apply note_apply_fields_falsy|].
  intros s Hs Hne. apply note_apply_fields_set; [exact Hs | exact (strip_nonempty s Hne)].
Qed.

Lemma update_stores_trimmed_fields_witness :
  ∃ r', table (serve (PUT_record 1 (PDict {[ k_name := PStr (lit " Z ");
                                             k_note := PStr [] ]}))
                     one_record_world).2 !! 1%Z = Some r' ∧
        id r' = 1%Z ∧ created_at r' = created_at sample_record ∧
        updated_at r' = Some (clock one_record_world (tick one_record_world)) ∧
        (({[ k_name := PStr (lit " Z "); k_note := PStr [] ]} : gmap (list N) pyval)
           !! k_name = None → name r' = name sample_record) ∧
        (∀ s, ({[ k_name := PStr (lit " Z "); k_note := PStr [] ]} : gmap (list N) pyval)
                !! k_name = Some (PStr s) → strip s ≠ [] → name r' = strip s) ∧
        (({[ k_name := PStr (lit " Z "); k_note := PStr [] ]} : gmap (list N) pyval)
           !! k_message = None → message r' = message sample_record) ∧
        (∀ s, ({[ k_name := PStr (lit " Z "); k_note := PStr [] ]} : gmap (list N) pyval)
                !! k_message = Some (PStr s) → strip s ≠ [] → message r' = strip s) ∧
        (({[ k_name := PStr (lit " Z "); k_note := PStr [] ]} : gmap (list N) pyval)
           !! k_note = None → note r' = note sample_record) ∧
        (∀ v, ({[ k_name := PStr (lit " Z "); k_note := PStr [] ]} : gmap (list N) pyval)
                !! k_note = Some v → truthy v = false → note r' = None) ∧
        (∀ s, ({[ k_name := PStr (lit " Z "); k_note := PStr [] ]} : gmap (list N) pyval)
                !! k_note = Some (PStr s) → strip s ≠ [] → note r' = Some (strip s)).
Proof.
  apply (update_stores_trimmed_fields one_record_world 1 sample_record
           {[ k_name := PStr (lit " Z "); k_note := PStr [] ]}).
  - reflexivity.
  - vm_compute; reflexivity.
  - reflexivity.
  - intros H. apply (f_equal (fun x : gmap (list N) pyval => x !! k_name)) in H.
    vm_compute in H. discriminate H.
  - vm_compute; reflexivity.
Defined.

End UpdateAcceptance.

Section RecordJson.

(** X13. The JSON object of a record loses nothing: reading id, name,
    message, note and the two timestamps back from it gives the record
    again, for timestamps within the ranges of a datetime. *)
Theorem from_dict_to_dict (r : record) :
  times_in_range r = true →
  from_dict (PDict (list_to_map (to_dict r))) = r.
Proof.
  unfold times_in_range. intros H. apply andb_prop in H as [Hc Hu].
  destruct r as [i n msg nt c u]. cbn [created_at updated_at] in Hc, Hu.
  unfold from_dict, field.
  change ((list_to_map (to_dict (mkRecord i n msg nt c u)) : gmap (list N) pyval) !! k_id)
    with (Some (PInt i)).
  rewrite to_dict_name, to_dict_note, to_dict_createdAt, to_dict_updatedAt.
  change ((list_to_map (to_dict (mkRecord i n msg nt c u)) : gmap (list N) pyval) !! k_message)
    with (Some (PStr msg)).
  cbn [name note created_at updated_at str_of_json].
  f_equal.
  - destruct nt; reflexivity.
  - destruct c as [d|]; [|reflexivity]. cbn [time_json time_of_json].
    rewrite (parse_z_strftime_z d Hc). reflexivity.
  - destruct u as [d|]; [|reflexivity]. cbn [time_json time_of_json].
    rewrite (parse_z_strftime_z d Hu). reflexivity.
Qed.

Lemma from_dict_to_dict_witness :
  from_dict (PDict (list_to_map (to_dict sample_record))) = sample_record.
Proof. apply (from_dict_to_dict sample_record). reflexivity. Defined.

End RecordJson.

Section IllTypedBodies.

(** X11. A body that is true for Python but of the wrong type is not
    answered 400: a create whose body is not a JSON object, and an
    update of an existing record whose body is a boolean or a number,
    end in the 500 handler ("Internal server error") and leave the
    world as it was. *)
Theorem ill_typed_bodies_answer_500 (w : world) (record_id : Z) (r : record) (data : pyval) :
  truthy data = true →
  (is_mapping data = false → serve (POST_records data) w = (internal_error, w)) ∧
  (is_scalar data = true → outage w = None → table w !! record_id = Some r →
   serve (PUT_record record_id data) w = (internal_error, w)).
Proof.
  intros Ht. split.
  - intros Hm. destruct data as [ | b | z | f | s | l | m ];
      try discriminate Hm; try discriminate Ht; run; rewrite Ht; reflexivity.
  - intros Hs Ho Hr. destruct data as [ | b | z | f | s | l | m ];
      try discriminate Hs; run; rewrite Ho, Hr, Ht; reflexivity.
Qed.

Lemma ill_typed_bodies_answer_500_witness :
  (is_mapping (PInt 5) = false →
   serve (POST_records (PInt 5)) one_record_world = (internal_error, one_record_world)) ∧
  (is_scalar (PInt 5) = true → outage one_record_world = None →
   table one_record_world !! 1%Z = Some sample_record →
   serve (PUT_record 1 (PInt 5)) one_record_world = (internal_error, one_record_world)).
Proof.
  apply (ill_typed_bodies_answer_500 one_record_world 1 sample_record (PInt 5)).
  reflexivity.
Defined.

End IllTypedBodies.
